(** * telegram-video: the media session handlers of [bot.py]

    A shallow embedding of [run_ffmpeg], [handle_media] and [button_cb],
    with the command handlers [start] and [help_cmd] and the start-up
    [main].
    The handlers are effectful Python coroutines; they are modelled in a
    small monad that threads the part of the world they touch (the
    temporary-file storage and the per-user [context.user_data] dict),
    records every external call in a log, and has the three ways a Python
    block can complete: falling through, [return], and a raised exception.

    Everything outside the process (the chat gateway, [tempfile], the
    ffmpeg child process) answers through an [Env] record, one per handled
    event, so a theorem quantified over [Env] covers every behaviour of
    the collaborators. Events of one user are handled one after the other;
    the interleaving of coroutines is not modelled. *)

From Stdlib Require Import ZArith Ascii String List.
From stdpp Require Import base strings list gmap.

Local Open Scope string_scope.
Local Open Scope list_scope.

#[local] Set Warnings "-clear-no-such-hyp".

(** ** Python strings and [pathlib] *)

(** [s.split(c)] for a one-character separator. *)
Fixpoint split_on (c : ascii) (s : string) : list string :=
  match s with
  | EmptyString => [EmptyString]
  | String a s' =>
      if Ascii.eqb a c then EmptyString :: split_on c s'
      else match split_on c s' with
           | [] => [String a EmptyString]
           | h :: t => String a h :: t
           end
  end.

(** [s.rfind(c)]; [None] stands for Python's [-1]. *)
Fixpoint rfind (c : ascii) (s : string) : option nat :=
  match s with
  | EmptyString => None
  | String a s' =>
      match rfind c s' with
      | Some i => Some (S i)
      | None => if Ascii.eqb a c then Some 0 else None
      end
  end.

(** [needle in s]. *)
Fixpoint contains (needle s : string) : bool :=
  String.prefix needle s ||
  match s with
  | EmptyString => false
  | String _ s' => contains needle s'
  end.

(** [PurePosixPath(p).parts] without the root: empty components and [.]
    are dropped when the path is parsed. *)
Definition path_parts (p : string) : list string :=
  filter (fun x => x <> EmptyString /\ x <> ".") (split_on "/" p).

(** [Path(p).name]: the final component, empty for a bare root. *)
Definition path_name (p : string) : string :=
  List.last (path_parts p) EmptyString.

(** [Path(p).suffix]: [name[i:]] when [0 < i < len(name) - 1] for
    [i = name.rfind('.')], else the empty string. *)
Definition path_suffix (p : string) : string :=
  let name := path_name p in
  match rfind "." name with
  | Some i =>
      if (0 <? i)%nat && (i <? String.length name - 1)%nat
      then String.substring i (String.length name - i) name
      else EmptyString
  | None => EmptyString
  end.

(** [shlex.quote], used for the logged command line. *)
Definition shell_safe (a : ascii) : bool :=
  let n := nat_of_ascii a in
  ((48 <=? n) && (n <=? 57))%nat || ((65 <=? n) && (n <=? 90))%nat ||
  ((97 <=? n) && (n <=? 122))%nat ||
  existsb (Ascii.eqb a)
    ["_"; "@"; "%"; "+"; "="; ":"; ","; "."; "/"; "-"]%char.

Definition dquote : string := String (ascii_of_nat 34) EmptyString.

Fixpoint escape_squote (s : string) : string :=
  match s with
  | EmptyString => EmptyString
  | String a s' =>
      (if Ascii.eqb a "'" then "'" +:+ dquote +:+ "'" +:+ dquote +:+ "'"
       else String a EmptyString) +:+ escape_squote s'
  end.

Definition shlex_quote (s : string) : string :=
  match s with
  | EmptyString => "''"
  | _ =>
      if forallb shell_safe (list_ascii_of_string s) then s
      else "'" +:+ escape_squote s +:+ "'"
  end.

(** ** Exceptions, external calls and the world *)

Inductive exn : Type :=
  | RuntimeError (msg : string)
  | TypeError (msg : string)
  | FileNotFoundError (msg : string)
  | OSError (msg : string)
  | TelegramError (msg : string).

(** [str(exc)]. *)
Definition py_str (e : exn) : string :=
  match e with
  | RuntimeError m | TypeError m | FileNotFoundError m
  | OSError m | TelegramError m => m
  end.

Inductive log_level : Type := INFO | ERROR.

(** An inline keyboard: rows of (label, callback_data) buttons. *)
Definition keyboard : Type := list (list (string * string)).

(** Every call that leaves the handler, in the order it is attempted. *)
Inductive event : Type :=
  | EvAnswer
  | EvEditText (text : string)
  | EvReplyText (text : string) (markup : option keyboard)
  | EvGetFile (file_id : string)
  | EvDownload (file_id path : string)
  | EvSendDocument (path filename : string)
  | EvTempFile (suffix path : string)
  | EvSubprocess (cmd : list string)
  | EvUnlink (path : string)
  | EvLog (level : log_level) (msg : string).

(** Outcome of [subprocess.run]: the child could not be started, or it
    ran to its exit with a return code and a (decoded) stderr stream;
    [wrote] says whether the child created its output file. *)
Inductive proc_result : Type :=
  | SpawnFailed (e : exn)
  | Exited (returncode : Z) (stderr : string) (wrote : bool).

(** The collaborators' answers while one event is handled. *)
Record Env : Type := {
  answer_error : option exn;
  edit_error : string -> option exn;
  reply_error : string -> option exn;
  get_file_error : string -> option exn;
  download_error : string -> string -> option exn;
  send_error : string -> string -> option exn;
  temp_path : string -> string;
  subprocess_result : list string -> proc_result
}.

(** The state the handlers read and write: the paths that exist on
    storage and the [context.user_data] dict of the user. *)
Record world : Type := {
  fs : gset string;
  user_data : gmap string string
}.

(** ** The handler monad *)

Inductive completion (A : Type) : Type :=
  | Normal (a : A)
  | Returned
  | Raise (e : exn).
Arguments Normal {A} a.
Arguments Returned {A}.
Arguments Raise {A} e.

Definition M (A : Type) : Type := world -> completion A * world * list event.

Definition ret {A} (a : A) : M A := fun w => (Normal a, w, []).

Definition bind {A B} (m : M A) (k : A -> M B) : M B :=
  fun w =>
    match m w with
    | (Normal a, w1, l1) =>
        match k a w1 with (r, w2, l2) => (r, w2, l1 ++ l2) end
    | (Returned, w1, l1) => (Returned, w1, l1)
    | (Raise e, w1, l1) => (Raise e, w1, l1)
    end.

Declare Scope handler_scope.
Delimit Scope handler_scope with handler.
Notation "x <- m ;; k" := (bind m (fun x => k))
  (at level 100, m at next level, right associativity) : handler_scope.
Notation "m ;; k" := (bind m (fun _ => k))
  (at level 100, right associativity) : handler_scope.
Local Open Scope handler_scope.

Definition raise {A} (e : exn) : M A := fun w => (Raise e, w, []).

(** Python's [return] in the middle of a handler. *)
Definition early_return {A} : M A := fun w => (Returned, w, []).

Definition emit (ev : event) : M unit := fun w => (Normal tt, w, [ev]).

Definition get_world : M world := fun w => (Normal w, w, []).

Definition put_world (w : world) : M unit := fun _ => (Normal tt, w, []).

(** [try: body except Exception as exc: handler exc]. *)
Definition try_except {A} (body : M A) (handler : exn -> M A) : M A :=
  fun w =>
    match body w with
    | (Raise e, w1, l1) =>
        match handler e w1 with (r, w2, l2) => (r, w2, l1 ++ l2) end
    | other => other
    end.

(** [try: body finally: fin]. The finaliser runs however the body
    completed; the body's completion is resumed afterwards unless the
    finaliser itself returns or raises. *)
Definition try_finally {A} (body : M A) (fin : M unit) : M A :=
  fun w =>
    match body w with
    | (r, w1, l1) =>
        match fin w1 with
        | (Normal _, w2, l2) => (r, w2, l1 ++ l2)
        | (Returned, w2, l2) => (Returned, w2, l1 ++ l2)
        | (Raise e, w2, l2) => (Raise e, w2, l1 ++ l2)
        end
    end.

(** The boundary of a function whose result is [None]: a [return] inside
    it is a normal completion for the caller. *)
Definition call (body : M unit) : M unit :=
  fun w =>
    match body w with
    | (Returned, w1, l1) => (Normal tt, w1, l1)
    | other => other
    end.

(** An external call that the environment may fail. *)
Definition external (ev : event) (err : option exn) : M unit :=
  emit ev ;;
  match err with
  | Some e => raise e
  | None => ret tt
  end.

(** ** The primitives the handlers use *)

(** [os.path.exists(p)]. *)
Definition os_path_exists (p : string) : M bool :=
  w <- get_world ;; ret (bool_decide (p ∈ fs w)).

(** [os.unlink(p)]: removes an existing path, raises on a missing one. *)
Definition os_unlink (p : string) : M unit :=
  emit (EvUnlink p) ;;
  w <- get_world ;;
  if bool_decide (p ∈ fs w)
  then put_world {| fs := fs w ∖ {[p]}; user_data := user_data w |}
  else raise (FileNotFoundError
                ("[Errno 2] No such file or directory: '" +:+ p +:+ "'")).

(** [open(p, "rb")]: only whether it succeeds matters here. *)
Definition py_open (p : string) : M unit :=
  w <- get_world ;;
  if bool_decide (p ∈ fs w) then ret tt
  else raise (FileNotFoundError
                ("[Errno 2] No such file or directory: '" +:+ p +:+ "'")).

(** [tempfile.NamedTemporaryFile(delete=False, suffix=...)] followed by
    [.name] and [.close()]: the file named by the environment now exists
    and stays on storage. *)
Definition named_temporary_file (env : Env) (suffix : string) : M string :=
  let p := temp_path env suffix in
  emit (EvTempFile suffix p) ;;
  w <- get_world ;;
  put_world {| fs := {[p]} ∪ fs w; user_data := user_data w |} ;;
  ret p.

(** [user_data.get(k)], [user_data[k] = v] and [user_data.pop(k, None)]. *)
Definition dict_get (k : string) : M (option string) :=
  w <- get_world ;; ret (user_data w !! k).

Definition dict_set (k v : string) : M unit :=
  w <- get_world ;;
  put_world {| fs := fs w; user_data := <[k := v]> (user_data w) |}.

Definition dict_pop (k : string) : M unit :=
  w <- get_world ;;
  put_world {| fs := fs w; user_data := delete k (user_data w) |}.

(** The gateway calls. *)
Definition query_answer (env : Env) : M unit :=
  external EvAnswer (answer_error env).

Definition edit_message_text (env : Env) (text : string) : M unit :=
  external (EvEditText text) (edit_error env text).

Definition reply_text (env : Env) (text : string) (markup : option keyboard)
  : M unit :=
  external (EvReplyText text markup) (reply_error env text).

Definition send_document (env : Env) (path filename : string) : M unit :=
  py_open path ;;
  external (EvSendDocument path filename) (send_error env path filename).

Definition logger (level : log_level) (msg : string) : M unit :=
  emit (EvLog level msg).

(** ** [run_ffmpeg] *)

Definition run_ffmpeg (env : Env) (input_path output_path : string)
  : M string :=
  let cmd :=
    [ "ffmpeg";
      "-y";
      "-i";
      input_path;
      "-vf";
      "scale='min(1280,iw)':'min(720,ih)':force_original_aspect_ratio=decrease";
      "-c:v";
      "libx264";
      "-preset";
      "veryfast";
      "-crf";
      "28";
      "-c:a";
      "aac";
      "-b:a";
      "128k";
      output_path ] in
  logger INFO ("Running ffmpeg: " +:+ String.concat " " (map shlex_quote cmd)) ;;
  emit (EvSubprocess cmd) ;;
  match subprocess_result env cmd with
  | SpawnFailed e => raise e
  | Exited returncode stderr wrote =>
      (if wrote
       then w <- get_world ;;
            put_world {| fs := {[output_path]} ∪ fs w;
                         user_data := user_data w |}
       else ret tt) ;;
      if negb (returncode =? 0)%Z
      then logger ERROR ("ffmpeg failed: " +:+ stderr) ;;
           raise (RuntimeError "ffmpeg failed")
      else ret output_path
  end.

(** ** [handle_media] *)

(** The attribute [file_name] as [getattr(file_obj, "file_name", d)] sees
    it: absent, present and [None], or present and a string. *)
Inductive attr : Type := AttrMissing | AttrNone | AttrStr (s : string).

Record tg_file : Type := { file_id : string; file_name : attr }.

Record Message : Type := {
  video : option tg_file;
  animation : option tg_file
}.

Definition getattr_file_name (f : tg_file) (default : string)
  : option string :=
  match file_name f with
  | AttrMissing => Some default
  | AttrNone => None
  | AttrStr s => Some s
  end.

(** [Path(filename)] accepts a string; [Path(None)] raises. *)
Definition path_arg (filename : option string) : M string :=
  match filename with
  | Some f => ret f
  | None =>
      raise (TypeError
               "expected str, bytes or os.PathLike object, not NoneType")
  end.

Definition msg_no_media : string :=
  "لم أجد فيديو أو GIF في الرسالة — أرسل ملف فيديو أو GIF.".
Definition msg_choose : string := "اختر ماذا تريد أن أفعل بالملف:".
Definition choice_keyboard : keyboard :=
  [ [("أرسل الأصلي", "original")];
    [("ضغط وأرسل أصغر", "compress")] ].

(** Lines 72-86: which media the message carries, with the name and
    kind recorded for it; [None] when it is neither video nor animation. *)
Definition select_media (message : Message)
  : option (tg_file * option string * string) :=
  match video message with
  | Some file_obj =>
      Some (file_obj, getattr_file_name file_obj "video.mp4", "video")
  | None =>
      match animation message with
      | Some file_obj =>
          Some (file_obj, getattr_file_name file_obj "animation.gif",
                "animation")
      | None => None
      end
  end.

Definition handle_media (env : Env) (message : Message) : M unit :=
  call (
    match select_media message with
    | None => reply_text env msg_no_media None ;; early_return
    | Some (file_obj, filename, mime) =>
        let fid := file_id file_obj in
        filename <- path_arg filename ;;
        tmp_in_path <- named_temporary_file env (path_suffix filename) ;;
        external (EvGetFile fid) (get_file_error env fid) ;;
        external (EvDownload fid tmp_in_path)
          (download_error env fid tmp_in_path) ;;
        dict_set "last_media_path" tmp_in_path ;;
        dict_set "last_media_mime" mime ;;
        dict_set "last_media_filename" filename ;;
        reply_text env msg_choose (Some choice_keyboard)
    end).

(** ** [button_cb] *)

Definition msg_no_file : string :=
  "لا يوجد ملف محفوظ حالياً — أرسل ملفًا جديدًا.".
Definition msg_sending_original : string := "جارٍ إرسال الملف الأصلي...".
Definition msg_sent_original : string := "تم إرسال الملف الأصلي.".
Definition msg_compressing : string := "جارٍ ضغط الملف — يرجى الانتظار...".
Definition msg_compress_failed : string := "فشل الضغط: ".
Definition msg_sent_compressed : string := "تم إرسال الملف المضغوط.".

(** [media_path and os.path.exists(media_path)], short-circuit: the
    stored path when it is set, non-empty and on storage. *)
Definition stored_and_exists (media_path : option string)
  : M (option string) :=
  match media_path with
  | None => ret None
  | Some p =>
      if String.eqb p EmptyString then ret None
      else found <- os_path_exists p ;; ret (if found then Some p else None)
  end.

(** [mime in ("video", "animation")]. *)
Definition is_video_or_animation (mime : option string) : bool :=
  match mime with
  | Some m => String.eqb m "video" || String.eqb m "animation"
  | None => false
  end.

(** Line 135: [".mp4" if mime in ("video", "animation") else
    Path(filename).suffix]. *)
Definition output_suffix (mime : option string) (filename : string)
  : string :=
  if is_video_or_animation mime then ".mp4" else path_suffix filename.

(** The [try] block, lines 126-155: what is done with the stored file
    [media_path] for the decision [data]. *)
Definition decision_body (env : Env) (data media_path : string)
    (mime : option string) (filename : string) : M unit :=
  if String.eqb data "original" then
    edit_message_text env msg_sending_original ;;
    send_document env media_path filename ;;
    edit_message_text env msg_sent_original
  else if String.eqb data "compress" then
    edit_message_text env msg_compressing ;;
    let suffix := output_suffix mime filename in
    tmp_out_path <- named_temporary_file env suffix ;;
    out_path <-
      try_except (run_ffmpeg env media_path tmp_out_path)
        (fun exc =>
           logger ERROR "Compression failed" ;;
           edit_message_text env (msg_compress_failed +:+ py_str exc) ;;
           early_return) ;;
    send_document env out_path (path_name out_path) ;;
    edit_message_text env msg_sent_compressed ;;
    try_except (os_unlink out_path) (fun _ => ret tt)
  else ret tt.

(** The [finally] block, lines 158-167: cleanup of the input file, then
    the three session keys are popped. *)
Definition release_and_clear (media_path : option string) : M unit :=
  try_except
    (still <- stored_and_exists media_path ;;
     match still with
     | Some p => os_unlink p
     | None => ret tt
     end)
    (fun _ => ret tt) ;;
  dict_pop "last_media_path" ;;
  dict_pop "last_media_mime" ;;
  dict_pop "last_media_filename".

Definition button_cb (env : Env) (data : string) : M unit :=
  call (
    query_answer env ;;
    media_path <- dict_get "last_media_path" ;;
    mime <- dict_get "last_media_mime" ;;
    stored_name <- dict_get "last_media_filename" ;;
    let filename := default "file" stored_name in
    checked <- stored_and_exists media_path ;;
    match checked with
    | None => edit_message_text env msg_no_file ;; early_return
    | Some path =>
        try_finally (decision_body env data path mime filename)
          (release_and_clear media_path)
    end).

(** ** Reading the log *)

(** How many times [os.unlink] was called on [p]. *)
Fixpoint unlinks (p : string) (l : list event) : nat :=
  match l with
  | [] => 0
  | EvUnlink q :: l' => (if String.eqb q p then 1 else 0) + unlinks p l'
  | _ :: l' => unlinks p l'
  end.

(** Every [os.unlink] call, whatever its path. *)
Fixpoint deletions (l : list event) : list string :=
  match l with
  | [] => []
  | EvUnlink q :: l' => q :: deletions l'
  | _ :: l' => deletions l'
  end.

(** The documents sent: (path, filename). *)
Fixpoint sent (l : list event) : list (string * string) :=
  match l with
  | [] => []
  | EvSendDocument p f :: l' => (p, f) :: sent l'
  | _ :: l' => sent l'
  end.

(** The command lines of the child processes started. *)
Fixpoint processes (l : list event) : list (list string) :=
  match l with
  | [] => []
  | EvSubprocess cmd :: l' => cmd :: processes l'
  | _ :: l' => processes l'
  end.

(** The texts shown to the user through [edit_message_text]. *)
Fixpoint edits (l : list event) : list string :=
  match l with
  | [] => []
  | EvEditText t :: l' => t :: edits l'
  | _ :: l' => edits l'
  end.

(** The session of the user is empty: none of the three keys is set. *)
Definition session_empty (w : world) : Prop :=
  user_data w !! "last_media_path" = None /\
  user_data w !! "last_media_mime" = None /\
  user_data w !! "last_media_filename" = None.

(** The session holds an item whose file passes the check of line 121. *)
Definition pending (w : world) (p : string) : Prop :=
  user_data w !! "last_media_path" = Some p /\ p <> EmptyString /\ p ∈ fs w.

(** The temp file that the compress branch acquires for the output. *)
Definition output_path_of (env : Env) (w : world) : string :=
  temp_path env
    (output_suffix (user_data w !! "last_media_mime")
       (default "file" (user_data w !! "last_media_filename"))).

(** ** Sample inputs

    Concrete collaborators and worlds on which the handlers are run. *)

(** Every call succeeds, ffmpeg exits with status 0, and [tempfile] picks
    the name [/tmp/tmp<stem><suffix>]. *)
Definition calm_env (stem : string) : Env :=
  {| answer_error := None;
     edit_error := fun _ => None;
     reply_error := fun _ => None;
     get_file_error := fun _ => None;
     download_error := fun _ _ => None;
     send_error := fun _ _ => None;
     temp_path := fun suffix => "/tmp/tmp" +:+ stem +:+ suffix;
     subprocess_result := fun _ => Exited 0 EmptyString true |}.

(** As [calm_env], but ffmpeg exits with status 1 and the given stderr. *)
Definition failing_ffmpeg_env (stem stderr : string) : Env :=
  {| answer_error := None;
     edit_error := fun _ => None;
     reply_error := fun _ => None;
     get_file_error := fun _ => None;
     download_error := fun _ _ => None;
     send_error := fun _ _ => None;
     temp_path := fun suffix => "/tmp/tmp" +:+ stem +:+ suffix;
     subprocess_result := fun _ => Exited 1 stderr false |}.

(** As [calm_env], but sending a document fails. *)
Definition failing_send_env (stem : string) : Env :=
  {| answer_error := None;
     edit_error := fun _ => None;
     reply_error := fun _ => None;
     get_file_error := fun _ => None;
     download_error := fun _ _ => None;
     send_error := fun _ _ => Some (TelegramError "Timed out");
     temp_path := fun suffix => "/tmp/tmp" +:+ stem +:+ suffix;
     subprocess_result := fun _ => Exited 0 EmptyString true |}.

Definition empty_world : world := {| fs := ∅; user_data := ∅ |}.

Definition video_message (id name : string) : Message :=
  {| video := Some {| file_id := id; file_name := AttrStr name |};
     animation := None |}.

Definition animation_message (id name : string) : Message :=
  {| video := None;
     animation := Some {| file_id := id; file_name := AttrStr name |} |}.

(** The world after the user uploaded the video [name], stored under
    [/tmp/tmp<stem>.<ext>]. *)
Definition after_upload (stem name : string) : world :=
  snd (fst (handle_media (calm_env stem) (video_message "F1" name)
              empty_world)).

(** ** The command handlers and [main] *)

Definition msg_start : string :=
  "مرحبًا — أرسل لي فيديو أو GIF وسأعطيك خيار إرسال الأصلي أو ضغطه.".
Definition msg_help : string :=
  "أوامر: /start, /help — أرسل فيديو أو GIF للتعامل معه.".

Definition start (env : Env) : M unit :=
  call (reply_text env msg_start None).

Definition help_cmd (env : Env) : M unit :=
  call (reply_text env msg_help None).

(** The four callbacks that [main] registers. *)
Inductive callback : Type :=
  | cb_start | cb_help_cmd | cb_handle_media | cb_button_cb.

(** The filter expressions of [telegram.ext.filters] that [main] uses. *)
Inductive message_filter : Type :=
  | VIDEO
  | ANIMATION
  | FilterOr (a b : message_filter).


Inductive handler : Type :=
  | CommandHandler (command : string) (cb : callback)
  | MessageHandler (f : message_filter) (cb : callback)
  | CallbackQueryHandler (cb : callback).



(** ** Sequences of events *)

(** The world a handler leaves behind. *)
Definition world_after (m : M unit) (w : world) : world := snd (fst (m w)).

(** The worlds the four handlers can produce, in any order and with any
    behaviour of the collaborators, starting with no session and any
    content of the storage. *)
Inductive reachable : world -> Prop :=
  | reach_init (files : gset string) :
      reachable {| fs := files; user_data := ∅ |}
  | reach_start env w :
      reachable w -> reachable (world_after (start env) w)
  | reach_help_cmd env w :
      reachable w -> reachable (world_after (help_cmd env) w)
  | reach_handle_media env message w :
      reachable w -> reachable (world_after (handle_media env message) w)
  | reach_button_cb env data w :
      reachable w -> reachable (world_after (button_cb env data) w).

(** The session holds a complete item: the three keys are set, the kind
    is one of the two that [handle_media] records, and the file is on
    storage. *)
Definition session_full (w : world) : Prop :=
  exists p kind name,
    user_data w !! "last_media_path" = Some p /\
    user_data w !! "last_media_mime" = Some kind /\
    user_data w !! "last_media_filename" = Some name /\
    (kind = "video" \/ kind = "animation") /\
    p ∈ fs w.

(** The three session keys. *)
Definition session_key (k : string) : Prop :=
  k = "last_media_path" \/ k = "last_media_mime" \/
  k = "last_media_filename".

(** The texts sent to the user through [reply_text]. *)
Fixpoint replies (l : list event) : list string :=
  match l with
  | [] => []
  | EvReplyText t _ :: l' => t :: replies l'
  | _ :: l' => replies l'
  end.

(** The temp files created. *)
Fixpoint temp_files (l : list event) : list string :=
  match l with
  | [] => []
  | EvTempFile _ p :: l' => p :: temp_files l'
  | _ :: l' => temp_files l'
  end.

(** As [calm_env], but the download of the file fails. *)
Definition failing_download_env (stem : string) : Env :=
  {| answer_error := None;
     edit_error := fun _ => None;
     reply_error := fun _ => None;
     get_file_error := fun _ => None;
     download_error := fun _ _ => Some (TelegramError "Timed out");
     send_error := fun _ _ => None;
     temp_path := fun suffix => "/tmp/tmp" +:+ stem +:+ suffix;
     subprocess_result := fun _ => Exited 0 EmptyString true |}.

(** As [calm_env], but the ffmpeg binary cannot be started. *)
Definition missing_ffmpeg_env (stem : string) : Env :=
  {| answer_error := None;
     edit_error := fun _ => None;
     reply_error := fun _ => None;
     get_file_error := fun _ => None;
     download_error := fun _ _ => None;
     send_error := fun _ _ => None;
     temp_path := fun suffix => "/tmp/tmp" +:+ stem +:+ suffix;
     subprocess_result := fun _ =>
       SpawnFailed
         (FileNotFoundError
            "[Errno 2] No such file or directory: 'ffmpeg'") |}.

(** As [calm_env], but answering the callback query fails. *)
Definition failing_answer_env (stem : string) : Env :=
  {| answer_error := Some (TelegramError "Query is too old");
     edit_error := fun _ => None;
     reply_error := fun _ => None;
     get_file_error := fun _ => None;
     download_error := fun _ _ => None;
     send_error := fun _ _ => None;
     temp_path := fun suffix => "/tmp/tmp" +:+ stem +:+ suffix;
     subprocess_result := fun _ => Exited 0 EmptyString true |}.

(** Every collaborator does its part: no gateway call fails and ffmpeg
    exits with status 0. *)
Definition cooperative (env : Env) : Prop :=
  answer_error env = None /\
  (forall t, edit_error env t = None) /\
  (forall t, reply_error env t = None) /\
  (forall i, get_file_error env i = None) /\
  (forall i p, download_error env i p = None) /\
  (forall p f, send_error env p f = None) /\
  (forall cmd, exists err wrote,
      subprocess_result env cmd = Exited 0 err wrote).

(** The string has a path separator in it. *)
Definition has_separator (s : string) : bool :=
  existsb (Ascii.eqb "/") (list_ascii_of_string s).

(** ** Proof tools *)

Ltac unfold_handler :=
  unfold button_cb, decision_body, release_and_clear, handle_media,
    run_ffmpeg, call, send_document,
    edit_message_text, reply_text, query_answer, logger, external,
    named_temporary_file, stored_and_exists, os_unlink, os_path_exists,
    py_open, dict_get, dict_set, dict_pop, path_arg,
    try_finally, try_except, bind, ret, raise, early_return, emit,
    get_world, put_world.

Ltac reduce :=
  cbn beta iota zeta delta [fs user_data fst snd app negb andb orb default
                            py_str unlinks deletions sent processes edits].

Ltac decide_membership P :=
  first [ rewrite (bool_decide_eq_true_2 P) by set_solver
        | rewrite (bool_decide_eq_false_2 P) by set_solver
        | destruct (bool_decide_reflect P) ].

Ltac split_case :=
  match goal with
  | H : ?x = _ |- context [match ?x with _ => _ end] => rewrite H
  | |- context [String.eqb ?a ?a] => rewrite (String.eqb_refl a)
  | |- context [String.eqb ?a ?b] =>
      destruct (String.eqb_spec a b); try subst; try congruence
  | |- context [bool_decide ?P] => decide_membership P
  | |- context [(?a =? ?b)%Z] => destruct (Z.eqb_spec a b); try congruence
  | |- context [edit_error ?e ?t] => destruct (edit_error e t) eqn:?
  | |- context [send_error ?e ?a ?b] => destruct (send_error e a b) eqn:?
  | |- context [reply_error ?e ?t] => destruct (reply_error e t) eqn:?
  | |- context [get_file_error ?e ?t] => destruct (get_file_error e t) eqn:?
  | |- context [download_error ?e ?a ?b] =>
      destruct (download_error e a b) eqn:?
  | |- context [subprocess_result ?e ?c] =>
      destruct (subprocess_result e c) eqn:?
  | |- context [if ?x then _ else _] => is_var x; destruct x
  end.

Ltac absurd_membership :=
  match goal with
  | H : ?x ∈ _ ∖ {[?x]} |- _ => exfalso; set_solver
  | H : ?x ∉ {[?x]} ∪ _ |- _ => exfalso; apply H; set_solver
  end.

(** Runs a handler symbolically, splitting on every answer of the
    collaborators and every test it meets. *)
Ltac run_all :=
  unfold_handler; repeat (reduce; split_case); reduce;
  try absurd_membership.

(** As [run_all], with [tac] tried before each case split. *)
Ltac run_with tac :=
  unfold_handler; repeat (reduce; first [tac | split_case]); reduce.

(** [pending] at a concrete world, by evaluation. *)
Ltac pending_now :=
  unfold pending;
  split; [vm_compute; reflexivity
         | split; [discriminate | vm_compute; reflexivity]].

Lemma not_elem_of_removed (X : gset string) (p : string) : p ∉ X ∖ {[p]}.
Proof. set_solver. Qed.

(** ** The model on sample inputs *)

Example path_name_of_temp_file :
  path_name "/tmp/tmpe5f6g7h8.mp4" = "tmpe5f6g7h8.mp4" /\
  path_name "clip.mp4" = "clip.mp4" /\
  path_name "/" = EmptyString.
Proof. repeat split. Qed.

Example path_suffix_samples :
  path_suffix "clip.mp4" = ".mp4" /\
  path_suffix "/srv/in/archive.tar.gz" = ".gz" /\
  path_suffix ".bashrc" = EmptyString /\
  path_suffix "file" = EmptyString /\
  path_suffix "name." = EmptyString.
Proof. repeat split. Qed.

Example shlex_quote_samples :
  shlex_quote "libx264" = "libx264" /\
  shlex_quote "/tmp/tmpe5f6g7h8.mp4" = "/tmp/tmpe5f6g7h8.mp4" /\
  shlex_quote "my clip.mp4" = "'my clip.mp4'" /\
  shlex_quote EmptyString = "''".
Proof. repeat split. Qed.

(** The scenario of the spec: [clip.mp4] is uploaded and compressed; the
    input and the output are both deleted and the session is empty. *)
Example upload_then_compress :
  let '(r, w, l) :=
    button_cb (calm_env "e5f6g7h8") "compress"
      (after_upload "a1b2c3d4" "clip.mp4") in
  r = Normal tt /\ elements (fs w) = [] /\ session_empty w /\
  edits l = [msg_compressing; msg_sent_compressed] /\
  deletions l = ["/tmp/tmpe5f6g7h8.mp4"; "/tmp/tmpa1b2c3d4.mp4"].
Proof. vm_compute. repeat split. Qed.

(** The same upload sent back unchanged, under its display name. *)
Example upload_then_original :
  let '(r, w, l) :=
    button_cb (calm_env "e5f6g7h8") "original"
      (after_upload "a1b2c3d4" "clip.mp4") in
  r = Normal tt /\ elements (fs w) = [] /\ session_empty w /\
  sent l = [("/tmp/tmpa1b2c3d4.mp4", "clip.mp4")] /\
  deletions l = ["/tmp/tmpa1b2c3d4.mp4"].
Proof. vm_compute. repeat split. Qed.

(** ** Shared facts about [button_cb] *)

Lemma unlinks_app p l1 l2 :
  unlinks p (l1 ++ l2) = unlinks p l1 + unlinks p l2.
Proof.
  induction l1 as [| ev l1 IH]; [reflexivity |].
  destruct ev; cbn [app unlinks]; rewrite IH; lia.
Qed.

Lemma sent_app l1 l2 : sent (l1 ++ l2) = sent l1 ++ sent l2.
Proof.
  induction l1 as [| ev l1 IH]; [reflexivity |].
  destruct ev; cbn [app sent]; rewrite IH; reflexivity.
Qed.

(** The [finally] block always completes normally: the stored file is
    unlinked if it is still there, and the three keys are gone. *)
Lemma release_and_clear_spec p w :
  p <> EmptyString ->
  release_and_clear (Some p) w =
    (Normal tt,
     {| fs := fs w ∖ {[p]};
        user_data := delete "last_media_filename"
                       (delete "last_media_mime"
                          (delete "last_media_path" (user_data w))) |},
     if bool_decide (p ∈ fs w) then [EvUnlink p] else []).
Proof.
  intros Hne. unfold release_and_clear, stored_and_exists.
  destruct (String.eqb_spec p EmptyString) as [| _]; [done |].
  unfold os_path_exists, os_unlink, dict_pop, try_except, bind, ret, raise,
    emit, get_world, put_world.
  reduce. destruct (bool_decide_reflect (p ∈ fs w)) as [Hin | Hout]; reduce.
  - rewrite (bool_decide_eq_true_2 _ Hin). reflexivity.
  - replace (fs w ∖ {[p]}) with (fs w) by set_solver. reflexivity.
Qed.

(** A [try]/[finally] whose finaliser completes normally: the body's
    completion is kept, the world is the finaliser's. *)
Lemma try_finally_normal {A} (body : M A) (fin : M unit) w r w1 l1 w2 l2 :
  body w = (r, w1, l1) -> fin w1 = (Normal tt, w2, l2) ->
  try_finally body fin w = (r, w2, l1 ++ l2).
Proof.
  intros Hb Hf. unfold try_finally. rewrite Hb, Hf. reflexivity.
Qed.

(** A decision that passes the check of line 121 is the [try] block on
    the stored file followed by the [finally] block. *)
Lemma button_cb_pending env data w p :
  pending w p -> answer_error env = None ->
  button_cb env data w =
    let '(r, w1, l1) :=
      decision_body env data p (user_data w !! "last_media_mime")
        (default "file" (user_data w !! "last_media_filename")) w in
    (match r with Returned => Normal tt | _ => r end,
     {| fs := fs w1 ∖ {[p]};
        user_data := delete "last_media_filename"
                       (delete "last_media_mime"
                          (delete "last_media_path" (user_data w1))) |},
     EvAnswer :: l1 ++ if bool_decide (p ∈ fs w1) then [EvUnlink p] else []).
Proof.
  intros (Hp & Hne & Hin) Ha.
  unfold button_cb, call, query_answer, external, dict_get,
    stored_and_exists, os_path_exists, bind, ret, emit, get_world.
  rewrite Ha. reduce. rewrite Hp.
  destruct (String.eqb_spec p EmptyString) as [| _]; [done |].
  reduce. rewrite (bool_decide_eq_true_2 _ Hin). reduce.
  destruct (decision_body env data p (user_data w !! "last_media_mime")
              (default "file" (user_data w !! "last_media_filename")) w)
    as [[r w1] l1] eqn:Hbody.
  rewrite (try_finally_normal _ _ _ _ _ _ _ _ Hbody
             (release_and_clear_spec p w1 Hne)).
  destruct r; reflexivity.
Qed.

(** The [try] block leaves [user_data] alone, and either keeps the input
    file without unlinking it, or has unlinked it once. *)
Lemma decision_body_input env data p mime filename w :
  p ∈ fs w ->
  let '(_, w1, l1) := decision_body env data p mime filename w in
  user_data w1 = user_data w /\
  (p ∈ fs w1 /\ unlinks p l1 = 0 \/ (p ∉ fs w1) /\ unlinks p l1 = 1).
Proof.
  intros Hin. run_all.
  all: split; [reflexivity |].
  all: first [ left; split; [set_solver | reflexivity]
             | right; split; [set_solver | reflexivity] ].
Qed.

(** Whatever the decision and whatever the collaborators do, a decision
    that passes the check of line 121 unlinks the stored file once and
    pops the three session keys. *)
Lemma button_cb_cleanup env data w p :
  pending w p -> answer_error env = None ->
  let '(r, w', l) := button_cb env data w in
  unlinks p l = 1 /\ (p ∉ fs w') /\
  user_data w' =
    delete "last_media_filename"
      (delete "last_media_mime" (delete "last_media_path" (user_data w))).
Proof.
  intros Hp Ha. rewrite (button_cb_pending env data w p Hp Ha).
  destruct Hp as (_ & _ & Hin).
  pose proof (decision_body_input env data p
                (user_data w !! "last_media_mime")
                (default "file" (user_data w !! "last_media_filename"))
                w Hin) as H.
  destruct (decision_body env data p _ _ w) as [[r w1] l1].
  destruct H as (-> & [(Hin1 & Hl) | (Hout & Hl)]).
  - rewrite (bool_decide_eq_true_2 _ Hin1).
    cbn [unlinks]. rewrite unlinks_app, Hl. cbn [unlinks].
    rewrite String.eqb_refl.
    split; [reflexivity | split; [apply not_elem_of_removed | reflexivity]].
  - rewrite (bool_decide_eq_false_2 _ Hout).
    cbn [unlinks]. rewrite unlinks_app, Hl.
    split; [reflexivity | split; [apply not_elem_of_removed | reflexivity]].
Qed.

(** Without a stored path, or with a stored path that is not on storage,
    the handler only answers the query and shows the diagnostic. *)
Lemma button_cb_no_file env data w :
  (user_data w !! "last_media_path" = None \/
   exists p, user_data w !! "last_media_path" = Some p /\ p ∉ fs w) ->
  answer_error env = None ->
  button_cb env data w =
    (match edit_error env msg_no_file with
     | Some e => Raise e
     | None => Normal tt
     end, w, [EvAnswer; EvEditText msg_no_file]).
Proof.
  intros [Hp | (p & Hp & Hout)] Ha; run_all; try reflexivity; done.
Qed.

Lemma session_empty_after_pops (m : gmap string string) w :
  user_data w =
    delete "last_media_filename"
      (delete "last_media_mime" (delete "last_media_path" m)) ->
  session_empty w.
Proof.
  intros H. unfold session_empty. rewrite H. by simplify_map_eq.
Qed.

(** ** Uploads *)

(** C1, as stated, fails: the user uploads [clip.mp4] and then, before
    any decision, [loop.gif]. Handling the second upload calls no
    deletion, and the file downloaded for the first upload is still on
    storage next to the second one. *)
Lemma second_upload_leaves_first_file :
  let '(r1, w1, l1) :=
    handle_media (calm_env "a1b2c3d4") (video_message "F1" "clip.mp4")
      empty_world in
  let '(r2, w2, l2) :=
    handle_media (calm_env "e5f6g7h8") (animation_message "F2" "loop.gif")
      w1 in
  r1 = Normal tt /\ r2 = Normal tt /\
  user_data w1 !! "last_media_path" = Some "/tmp/tmpa1b2c3d4.mp4" /\
  user_data w2 !! "last_media_path" = Some "/tmp/tmpe5f6g7h8.gif" /\
  deletions l2 = [] /\
  "/tmp/tmpa1b2c3d4.mp4" ∈ fs w2 /\
  ~ ("/tmp/tmpa1b2c3d4.mp4" ∉ fs w2).
Proof.
  vm_compute. repeat split; try reflexivity. intros H. apply H. reflexivity.
Qed.

(** C1, amended: for two uploads in a row whose downloads succeed, the
    second upload overwrites the session with its own path, kind and
    display name, so that the session refers to the most recent item
    only; it deletes nothing, and the temp file of the first upload is
    still on storage. *)
Theorem second_upload_supersedes_without_delete
  env1 env2 m1 m2 w f1 n1 k1 f2 n2 k2 :
  select_media m1 = Some (f1, Some n1, k1) ->
  get_file_error env1 (file_id f1) = None ->
  download_error env1 (file_id f1) (temp_path env1 (path_suffix n1)) = None ->
  select_media m2 = Some (f2, Some n2, k2) ->
  get_file_error env2 (file_id f2) = None ->
  download_error env2 (file_id f2) (temp_path env2 (path_suffix n2)) = None ->
  let p1 := temp_path env1 (path_suffix n1) in
  let p2 := temp_path env2 (path_suffix n2) in
  let '(_, w1, _) := handle_media env1 m1 w in
  let '(_, w2, l2) := handle_media env2 m2 w1 in
  user_data w1 !! "last_media_path" = Some p1 /\
  user_data w2 !! "last_media_path" = Some p2 /\
  user_data w2 !! "last_media_mime" = Some k2 /\
  user_data w2 !! "last_media_filename" = Some n2 /\
  deletions l2 = [] /\
  p1 ∈ fs w2 /\ p2 ∈ fs w2.
Proof.
  intros Hm1 Hg1 Hd1 Hm2 Hg2 Hd2 p1 p2. subst p1 p2.
  unfold handle_media. rewrite Hm1, Hm2.
  run_all.
  all: repeat split; try reflexivity; try (by simplify_map_eq); set_solver.
Qed.

Lemma second_upload_supersedes_without_delete_witness :
  let '(_, w1, _) :=
    handle_media (calm_env "a1b2c3d4") (video_message "F1" "clip.mp4")
      empty_world in
  let '(_, w2, l2) :=
    handle_media (calm_env "e5f6g7h8") (animation_message "F2" "loop.gif")
      w1 in
  user_data w1 !! "last_media_path" = Some "/tmp/tmpa1b2c3d4.mp4" /\
  user_data w2 !! "last_media_path" = Some "/tmp/tmpe5f6g7h8.gif" /\
  user_data w2 !! "last_media_mime" = Some "animation" /\
  user_data w2 !! "last_media_filename" = Some "loop.gif" /\
  deletions l2 = [] /\
  "/tmp/tmpa1b2c3d4.mp4" ∈ fs w2 /\ "/tmp/tmpe5f6g7h8.gif" ∈ fs w2.
Proof.
  apply (second_upload_supersedes_without_delete
           (calm_env "a1b2c3d4") (calm_env "e5f6g7h8")
           (video_message "F1" "clip.mp4")
           (animation_message "F2" "loop.gif") empty_world
           {| file_id := "F1"; file_name := AttrStr "clip.mp4" |}
           "clip.mp4" "video"
           {| file_id := "F2"; file_name := AttrStr "loop.gif" |}
           "loop.gif" "animation"); reflexivity.
Defined.

(** ** Decisions: cleanup of the input file *)

(** C2: a decision that passes the stored-file check unlinks the input
    file exactly once, and the file is gone when the handler is left, on
    every branch (original, compress with ffmpeg succeeding or failing)
    and for every behaviour of the collaborators. *)
Theorem decision_releases_input_once env data w p :
  pending w p -> answer_error env = None ->
  let '(_, w', l) := button_cb env data w in
  unlinks p l = 1 /\ p ∉ fs w'.
Proof.
  intros Hp Ha. pose proof (button_cb_cleanup env data w p Hp Ha) as H.
  destruct (button_cb env data w) as [[r w'] l]. tauto.
Qed.

Lemma decision_releases_input_once_witness :
  pending (after_upload "a1b2c3d4" "clip.mp4") "/tmp/tmpa1b2c3d4.mp4" /\
  (let '(_, w', l) :=
     button_cb (failing_ffmpeg_env "e5f6g7h8" "moov atom not found")
       "compress" (after_upload "a1b2c3d4" "clip.mp4") in
   unlinks "/tmp/tmpa1b2c3d4.mp4" l = 1 /\ "/tmp/tmpa1b2c3d4.mp4" ∉ fs w').
Proof.
  assert (Hp : pending (after_upload "a1b2c3d4" "clip.mp4")
                 "/tmp/tmpa1b2c3d4.mp4")
    by pending_now.
  split; [exact Hp |].
  apply (decision_releases_input_once
           (failing_ffmpeg_env "e5f6g7h8" "moov atom not found") "compress"
           (after_upload "a1b2c3d4" "clip.mp4") "/tmp/tmpa1b2c3d4.mp4");
    [exact Hp | reflexivity].
Defined.

(** C10: the same holds when a step of the decision raises: the input
    file is gone and the three session keys are removed however the
    handler is left, and an exception raised while the original is being
    delivered is the one that leaves the handler. *)
Theorem decision_cleans_up_on_exception env data w p :
  pending w p -> answer_error env = None ->
  let '(r, w', _) := button_cb env data w in
  (p ∉ fs w') /\ session_empty w' /\
  (forall e,
     data = "original" ->
     edit_error env msg_sending_original = None ->
     send_error env p (default "file" (user_data w !! "last_media_filename"))
       = Some e ->
     r = Raise e).
Proof.
  intros Hp Ha. pose proof (button_cb_cleanup env data w p Hp Ha) as H.
  destruct (button_cb env data w) as [[r w'] l] eqn:Hrun.
  destruct H as (_ & Hgone & Hdata).
  split; [exact Hgone |]. split; [by eapply session_empty_after_pops |].
  intros e -> He Hs. destruct Hp as (Hp & Hne & Hin).
  revert Hrun. run_all; congruence.
Qed.

Lemma decision_cleans_up_on_exception_witness :
  pending (after_upload "a1b2c3d4" "clip.mp4") "/tmp/tmpa1b2c3d4.mp4" /\
  (let '(r, w', _) :=
     button_cb (failing_send_env "e5f6g7h8") "original"
       (after_upload "a1b2c3d4" "clip.mp4") in
   ("/tmp/tmpa1b2c3d4.mp4" ∉ fs w') /\ session_empty w' /\
   r = Raise (TelegramError "Timed out")).
Proof.
  assert (Hp : pending (after_upload "a1b2c3d4" "clip.mp4")
                 "/tmp/tmpa1b2c3d4.mp4")
    by pending_now.
  split; [exact Hp |].
  pose proof (decision_cleans_up_on_exception
                (failing_send_env "e5f6g7h8") "original"
                (after_upload "a1b2c3d4" "clip.mp4") "/tmp/tmpa1b2c3d4.mp4"
                Hp eq_refl) as H.
  destruct (button_cb (failing_send_env "e5f6g7h8") "original"
              (after_upload "a1b2c3d4" "clip.mp4")) as [[r w'] l].
  destruct H as (Hgone & Hempty & Hraise).
  repeat split; try apply Hempty; [exact Hgone |].
  apply Hraise; reflexivity.
Defined.

(** C9: a decision whose data is neither [original] nor [compress], on a
    stored file that exists, sends nothing, starts no process and shows
    no text; it unlinks the stored file and pops the three keys. *)
Theorem unknown_decision_consumes_item env data w p :
  pending w p -> answer_error env = None ->
  data <> "original" -> data <> "compress" ->
  button_cb env data w =
    (Normal tt,
     {| fs := fs w ∖ {[p]};
        user_data := delete "last_media_filename"
                       (delete "last_media_mime"
                          (delete "last_media_path" (user_data w))) |},
     [EvAnswer; EvUnlink p]).
Proof.
  intros (Hp & Hne & Hin) Ha Ho Hc. run_all. reflexivity.
Qed.

Lemma unknown_decision_consumes_item_witness :
  let w := after_upload "a1b2c3d4" "clip.mp4" in
  pending w "/tmp/tmpa1b2c3d4.mp4" /\
  let '(r, w', l) := button_cb (calm_env "e5f6g7h8") "cancel" w in
  r = Normal tt /\ l = [EvAnswer; EvUnlink "/tmp/tmpa1b2c3d4.mp4"] /\
  sent l = [] /\ processes l = [] /\ edits l = [] /\
  session_empty w' /\ ("/tmp/tmpa1b2c3d4.mp4" ∉ fs w').
Proof.
  intros w.
  assert (Hp : pending w "/tmp/tmpa1b2c3d4.mp4")
    by pending_now.
  split; [exact Hp |].
  rewrite (unknown_decision_consumes_item (calm_env "e5f6g7h8") "cancel" w
             "/tmp/tmpa1b2c3d4.mp4" Hp eq_refl);
    [| discriminate | discriminate].
  repeat split; try (cbn [user_data]; by simplify_map_eq).
Defined.

(** ** Decisions without a stored file *)

(** C8: with no stored path, or with a stored path that is no longer on
    storage, the handler shows the no-file text and returns; it sends no
    document, starts no process and unlinks nothing, and the world is
    left as it was. *)
Theorem no_file_no_action env data w :
  (user_data w !! "last_media_path" = None \/
   exists p, user_data w !! "last_media_path" = Some p /\ p ∉ fs w) ->
  answer_error env = None ->
  let '(r, w', l) := button_cb env data w in
  l = [EvAnswer; EvEditText msg_no_file] /\
  sent l = [] /\ processes l = [] /\ deletions l = [] /\
  w' = w /\
  (edit_error env msg_no_file = None -> r = Normal tt).
Proof.
  intros Hno Ha. rewrite (button_cb_no_file env data w Hno Ha).
  repeat split. intros ->. reflexivity.
Qed.

Lemma no_file_no_action_witness :
  let '(r, w', l) := button_cb (calm_env "e5f6g7h8") "original" empty_world in
  l = [EvAnswer; EvEditText msg_no_file] /\
  sent l = [] /\ processes l = [] /\ deletions l = [] /\
  w' = empty_world /\
  (edit_error (calm_env "e5f6g7h8") msg_no_file = None -> r = Normal tt).
Proof.
  apply (no_file_no_action (calm_env "e5f6g7h8") "original" empty_world);
    [left; reflexivity | reflexivity].
Defined.

(** C7: of two decisions in a row, the first one that passes the check
    consumes the item (it acts on the stored file and leaves the session
    empty), and the second one finds nothing: it shows the no-file text,
    sends nothing and changes nothing. *)
Theorem second_decision_sees_absence env1 env2 data1 data2 w p :
  pending w p -> answer_error env1 = None -> answer_error env2 = None ->
  let '(_, w1, l1) := button_cb env1 data1 w in
  let '(_, w2, l2) := button_cb env2 data2 w1 in
  unlinks p l1 = 1 /\ session_empty w1 /\
  l2 = [EvAnswer; EvEditText msg_no_file] /\ sent l2 = [] /\ w2 = w1.
Proof.
  intros Hp Ha1 Ha2.
  pose proof (button_cb_cleanup env1 data1 w p Hp Ha1) as H.
  destruct (button_cb env1 data1 w) as [[r1 w1] l1].
  destruct H as (Honce & _ & Hdata).
  assert (Hempty : session_empty w1) by (by eapply session_empty_after_pops).
  rewrite (button_cb_no_file env2 data2 w1); [| left; apply Hempty | exact Ha2].
  repeat split; try apply Hempty. exact Honce.
Qed.

Lemma second_decision_sees_absence_witness :
  let w := after_upload "a1b2c3d4" "clip.mp4" in
  pending w "/tmp/tmpa1b2c3d4.mp4" /\
  let '(_, w1, l1) := button_cb (calm_env "e5f6g7h8") "original" w in
  let '(_, w2, l2) := button_cb (calm_env "i9j0k1l2") "original" w1 in
  unlinks "/tmp/tmpa1b2c3d4.mp4" l1 = 1 /\ session_empty w1 /\
  l2 = [EvAnswer; EvEditText msg_no_file] /\ sent l2 = [] /\ w2 = w1.
Proof.
  intros w.
  assert (Hp : pending w "/tmp/tmpa1b2c3d4.mp4") by pending_now.
  split; [exact Hp |].
  apply (second_decision_sees_absence (calm_env "e5f6g7h8")
           (calm_env "i9j0k1l2") "original" "original" w
           "/tmp/tmpa1b2c3d4.mp4" Hp); reflexivity.
Defined.

(** ** The transcode command *)

(** C6: [run_ffmpeg] starts exactly one process, and its command line is
    the fixed profile: the input path, the scale filter bounded by
    1280x720 and by the input's own size with the aspect ratio kept,
    libx264 with preset veryfast and CRF 28, AAC at 128k, and the output
    path last. *)
Theorem run_ffmpeg_fixed_profile env input_path output_path w :
  let '(_, _, l) := run_ffmpeg env input_path output_path w in
  processes l =
    [ [ "ffmpeg"; "-y"; "-i"; input_path;
        "-vf";
        "scale='min(1280,iw)':'min(720,ih)':force_original_aspect_ratio=decrease";
        "-c:v"; "libx264"; "-preset"; "veryfast"; "-crf"; "28";
        "-c:a"; "aac"; "-b:a"; "128k";
        output_path ] ].
Proof.
  run_all; reflexivity.
Qed.

(** ** Decisions: the compress branch *)

(** C3 fails on the code: when ffmpeg exits with a non-zero status, the
    handler unlinks the input file and nothing else; the output file that
    was acquired before the run is still on storage when it returns. *)
Theorem compress_failure_leaves_output env w p :
  pending w p -> answer_error env = None ->
  edit_error env msg_compressing = None ->
  (forall cmd, exists rc err wrote,
      subprocess_result env cmd = Exited rc err wrote /\ rc <> 0%Z) ->
  output_path_of env w <> p ->
  let '(_, w', l) := button_cb env "compress" w in
  deletions l = [p] /\ unlinks (output_path_of env w) l = 0 /\
  output_path_of env w ∈ fs w' /\ (p ∉ fs w').
Proof.
  intros (Hp & Hne & Hin) Ha He Hproc Hfresh. unfold output_path_of in *.
  run_with ltac:(
    idtac;
    match goal with
    | |- context [subprocess_result env ?c] =>
        destruct (Hproc c) as (rc & err & wrote & Hrun & Hrc); rewrite Hrun
    end).
  all: repeat split; try reflexivity; set_solver.
Qed.

Lemma compress_failure_leaves_output_witness :
  let env := failing_ffmpeg_env "e5f6g7h8" "moov atom not found" in
  let w := after_upload "a1b2c3d4" "clip.mp4" in
  pending w "/tmp/tmpa1b2c3d4.mp4" /\
  let '(_, w', l) := button_cb env "compress" w in
  deletions l = ["/tmp/tmpa1b2c3d4.mp4"] /\
  unlinks "/tmp/tmpe5f6g7h8.mp4" l = 0 /\
  "/tmp/tmpe5f6g7h8.mp4" ∈ fs w' /\ ("/tmp/tmpa1b2c3d4.mp4" ∉ fs w').
Proof.
  intros env w.
  assert (Hp : pending w "/tmp/tmpa1b2c3d4.mp4") by pending_now.
  split; [exact Hp |].
  apply (compress_failure_leaves_output env w "/tmp/tmpa1b2c3d4.mp4" Hp);
    [reflexivity | reflexivity | | vm_compute; discriminate].
  intros cmd. exists 1%Z, "moov atom not found", false.
  split; [reflexivity | discriminate].
Defined.

(** C4, as stated, fails: ffmpeg exits with status 1 and the stderr text
    [moov atom not found]; the exception that [run_ffmpeg] raises and the
    text shown to the user do not contain it. *)
Lemma transcode_failure_drops_stderr :
  let env := failing_ffmpeg_env "e5f6g7h8" "moov atom not found" in
  let w := after_upload "a1b2c3d4" "clip.mp4" in
  let '(r, _, _) :=
    run_ffmpeg env "/tmp/tmpa1b2c3d4.mp4" "/tmp/tmpe5f6g7h8.mp4" w in
  let '(_, _, l) := button_cb env "compress" w in
  r = Raise (RuntimeError "ffmpeg failed") /\
  (forall e, r = Raise e -> contains "moov atom not found" (py_str e) = false) /\
  edits l = [msg_compressing; "فشل الضغط: ffmpeg failed"] /\
  forallb (fun t => negb (contains "moov atom not found" t)) (edits l) = true.
Proof.
  vm_compute. repeat split. intros e [= <-]. reflexivity.
Qed.

(** C4, amended: when ffmpeg exits with a non-zero status, [run_ffmpeg]
    raises [RuntimeError] with the fixed message [ffmpeg failed]; the
    stderr stream goes to the error log only, and the text shown to the
    user is the failure prefix followed by that fixed message. *)
Theorem transcode_failure_reports_fixed_text env w p rc err wrote :
  pending w p -> answer_error env = None ->
  edit_error env msg_compressing = None ->
  (forall cmd, subprocess_result env cmd = Exited rc err wrote) ->
  rc <> 0%Z ->
  (forall input_path output_path w0,
     let '(r, _, l) := run_ffmpeg env input_path output_path w0 in
     r = Raise (RuntimeError "ffmpeg failed") /\
     In (EvLog ERROR ("ffmpeg failed: " +:+ err)) l /\ edits l = []) /\
  let '(_, _, l) := button_cb env "compress" w in
  edits l = [msg_compressing; msg_compress_failed +:+ "ffmpeg failed"].
Proof.
  intros (Hp & Hne & Hin) Ha He Hproc Hrc. split.
  - intros input_path output_path w0.
    run_with ltac:(idtac; rewrite Hproc).
    all: repeat split; try reflexivity; try (simpl; tauto); congruence.
  - run_with ltac:(idtac; rewrite Hproc); try reflexivity; congruence.
Qed.

Lemma transcode_failure_reports_fixed_text_witness :
  let env := failing_ffmpeg_env "e5f6g7h8" "moov atom not found" in
  let w := after_upload "a1b2c3d4" "clip.mp4" in
  pending w "/tmp/tmpa1b2c3d4.mp4" /\
  (forall input_path output_path w0,
     let '(r, _, l) := run_ffmpeg env input_path output_path w0 in
     r = Raise (RuntimeError "ffmpeg failed") /\
     In (EvLog ERROR "ffmpeg failed: moov atom not found") l /\
     edits l = []) /\
  let '(_, _, l) := button_cb env "compress" w in
  edits l = [msg_compressing; msg_compress_failed +:+ "ffmpeg failed"].
Proof.
  intros env w.
  assert (Hp : pending w "/tmp/tmpa1b2c3d4.mp4") by pending_now.
  split; [exact Hp |].
  apply (transcode_failure_reports_fixed_text env w "/tmp/tmpa1b2c3d4.mp4"
           1%Z "moov atom not found" false Hp);
    [reflexivity | reflexivity | reflexivity | discriminate].
Defined.

(** C5, as stated, fails: the user uploads [clip.mp4] and picks compress;
    the document is sent under the name of the temp output file, which
    has nothing of [clip] in it and is the same when the upload is called
    [holiday.mp4]. *)
Lemma compressed_document_name_ignores_display_name :
  let '(_, _, l1) :=
    button_cb (calm_env "e5f6g7h8") "compress"
      (after_upload "a1b2c3d4" "clip.mp4") in
  let '(_, _, l2) :=
    button_cb (calm_env "e5f6g7h8") "compress"
      (after_upload "a1b2c3d4" "holiday.mp4") in
  user_data (after_upload "a1b2c3d4" "clip.mp4") !! "last_media_filename"
    = Some "clip.mp4" /\
  sent l1 = [("/tmp/tmpe5f6g7h8.mp4", "tmpe5f6g7h8.mp4")] /\
  sent l2 = sent l1 /\
  contains "clip" "tmpe5f6g7h8.mp4" = false.
Proof.
  vm_compute. repeat split.
Qed.

(** C5, amended: on a compress decision where ffmpeg exits with status 0,
    exactly one document is sent: the temp output file, under its own base
    name. For a video or an animation that file is the one [tempfile]
    names for the suffix [.mp4], whatever the display name of the
    upload. *)
Theorem compressed_document_named_after_temp_file env w p :
  pending w p -> answer_error env = None ->
  edit_error env msg_compressing = None ->
  (forall cmd, exists err wrote,
      subprocess_result env cmd = Exited 0 err wrote) ->
  let '(_, _, l) := button_cb env "compress" w in
  sent l = [(output_path_of env w, path_name (output_path_of env w))] /\
  (is_video_or_animation (user_data w !! "last_media_mime") = true ->
   output_path_of env w = temp_path env ".mp4").
Proof.
  intros Hp Ha He Hproc. rewrite (button_cb_pending env "compress" w p Hp Ha).
  unfold output_path_of.
  set (mime := user_data w !! "last_media_mime").
  set (filename := default "file" (user_data w !! "last_media_filename")).
  assert (Hbody :
    let '(_, _, l1) := decision_body env "compress" p mime filename w in
    sent l1 = [(temp_path env (output_suffix mime filename),
                path_name (temp_path env (output_suffix mime filename)))]).
  { run_with ltac:(
      idtac;
      match goal with
      | |- context [subprocess_result env ?c] =>
          destruct (Hproc c) as (err & wrote & Hrun); rewrite Hrun
      end); reflexivity. }
  destruct (decision_body env "compress" p mime filename w) as [[r w1] l1].
  split.
  - cbn [sent]. rewrite sent_app, Hbody. by case_bool_decide.
  - unfold output_suffix. intros ->. reflexivity.
Qed.

Lemma compressed_document_named_after_temp_file_witness :
  let env := calm_env "e5f6g7h8" in
  let w := after_upload "a1b2c3d4" "clip.mp4" in
  pending w "/tmp/tmpa1b2c3d4.mp4" /\
  let '(_, _, l) := button_cb env "compress" w in
  sent l = [(output_path_of env w, path_name (output_path_of env w))] /\
  (is_video_or_animation (user_data w !! "last_media_mime") = true ->
   output_path_of env w = temp_path env ".mp4").
Proof.
  intros env w.
  assert (Hp : pending w "/tmp/tmpa1b2c3d4.mp4") by pending_now.
  split; [exact Hp |].
  apply (compressed_document_named_after_temp_file env w
           "/tmp/tmpa1b2c3d4.mp4" Hp); [reflexivity | reflexivity |].
  intros cmd. exists EmptyString, true. reflexivity.
Defined.

(** ** More on uploads *)

(** What [handle_media] can do to the world: it never unlinks, storage
    only grows, and the session is either left as it was or overwritten
    with a complete item whose file is on storage. *)
Lemma handle_media_effect env m w :
  let '(_, w', l) := handle_media env m w in
  deletions l = [] /\ fs w ⊆ fs w' /\
  (user_data w' = user_data w \/
   exists f n k,
     select_media m = Some (f, Some n, k) /\
     user_data w' =
       <["last_media_filename" := n]>
         (<["last_media_mime" := k]>
            (<["last_media_path" := temp_path env (path_suffix n)]>
               (user_data w))) /\
     temp_path env (path_suffix n) ∈ fs w').
Proof.
  unfold handle_media.
  destruct (select_media m) as [[[f [n |]] k] |] eqn:Hsel.
  - run_all.
    all: split; [reflexivity | split; [set_solver |]].
    all: first [ left; reflexivity
               | right; exists f, n, k;
                 split; [reflexivity | split; [reflexivity | set_solver]] ].
  - run_all. repeat split; [set_solver | left; reflexivity].
  - run_all. all: repeat split; [set_solver | left; reflexivity].
Qed.

Lemma select_media_kind m f n k :
  select_media m = Some (f, n, k) -> k = "video" \/ k = "animation".
Proof.
  unfold select_media. destruct (video m); [intros [= _ _ <-]; by left |].
  destruct (animation m); [intros [= _ _ <-]; by right | discriminate].
Qed.

(** X1: a message with neither a video nor an animation is answered with
    the diagnostic and nothing else: no temp file, no download, and the
    world is left as it was. *)
Theorem handle_media_unsupported env m w :
  video m = None -> animation m = None ->
  handle_media env m w =
    (match reply_error env msg_no_media with
     | Some e => Raise e
     | None => Normal tt
     end, w, [EvReplyText msg_no_media None]).
Proof.
  intros Hv Ha. unfold handle_media, select_media. rewrite Hv, Ha.
  run_all; reflexivity.
Qed.

Lemma handle_media_unsupported_witness :
  handle_media (calm_env "a1b2c3d4")
    {| video := None; animation := None |} empty_world =
    (Normal tt, empty_world, [EvReplyText msg_no_media None]).
Proof.
  apply (handle_media_unsupported (calm_env "a1b2c3d4")
           {| video := None; animation := None |} empty_world);
    reflexivity.
Defined.

(** X2: when the media object has a [file_name] attribute that is [None],
    the handler raises [TypeError] before anything is done: no temp file,
    no call to the gateway, world unchanged. When the attribute is absent
    the default name of the kind is used instead. *)
Theorem handle_media_without_file_name env m w f :
  (video m = Some f \/ video m = None /\ animation m = Some f) ->
  match file_name f with
  | AttrNone =>
      exists msg, handle_media env m w = (Raise (TypeError msg), w, [])
  | AttrMissing =>
      select_media m =
        Some (f, Some (if bool_decide (is_Some (video m))
                       then "video.mp4" else "animation.gif"),
              if bool_decide (is_Some (video m))
              then "video" else "animation")
  | AttrStr s => exists k, select_media m = Some (f, Some s, k)
  end.
Proof.
  intros [Hv | [Hv Ha]]; unfold handle_media, select_media, getattr_file_name;
    rewrite Hv; try rewrite Ha; destruct (file_name f); eauto.
  all: eexists; run_all; reflexivity.
Qed.

Lemma handle_media_without_file_name_witness :
  exists msg,
    handle_media (calm_env "a1b2c3d4")
      {| video := Some {| file_id := "F1"; file_name := AttrNone |};
         animation := None |} empty_world
    = (Raise (TypeError msg), empty_world, []).
Proof.
  apply (handle_media_without_file_name (calm_env "a1b2c3d4")
           {| video := Some {| file_id := "F1"; file_name := AttrNone |};
              animation := None |} empty_world
           {| file_id := "F1"; file_name := AttrNone |}).
  left. reflexivity.
Defined.

(** X3: when fetching or downloading the file raises, the exception
    leaves the handler, the session is not touched and nothing is replied,
    but the temp file created for the download stays on storage. *)
Theorem handle_media_download_failure env m w f n k e :
  select_media m = Some (f, Some n, k) ->
  (get_file_error env (file_id f) = Some e \/
   get_file_error env (file_id f) = None /\
   download_error env (file_id f) (temp_path env (path_suffix n)) = Some e) ->
  let '(r, w', l) := handle_media env m w in
  r = Raise e /\ user_data w' = user_data w /\
  fs w' = {[temp_path env (path_suffix n)]} ∪ fs w /\
  replies l = [] /\ deletions l = [].
Proof.
  intros Hsel Hfail. unfold handle_media. rewrite Hsel.
  destruct Hfail as [Hg | [Hg Hd]]; run_all; repeat split.
Qed.

Lemma handle_media_download_failure_witness :
  let '(r, w', l) :=
    handle_media (failing_download_env "a1b2c3d4")
      (video_message "F1" "clip.mp4") empty_world in
  r = Raise (TelegramError "Timed out") /\
  user_data w' = user_data empty_world /\
  fs w' = {["/tmp/tmpa1b2c3d4.mp4"]} ∪ fs empty_world /\
  replies l = [] /\ deletions l = [].
Proof.
  apply (handle_media_download_failure (failing_download_env "a1b2c3d4")
           (video_message "F1" "clip.mp4") empty_world
           {| file_id := "F1"; file_name := AttrStr "clip.mp4" |}
           "clip.mp4" "video" (TelegramError "Timed out"));
    [reflexivity | right; split; reflexivity].
Defined.

(** ** More on decisions *)

Lemma deletions_app l1 l2 :
  deletions (l1 ++ l2) = deletions l1 ++ deletions l2.
Proof.
  induction l1 as [| ev l1 IH]; [reflexivity |].
  destruct ev; cbn [app deletions]; rewrite IH; reflexivity.
Qed.

(** The [try] block changes storage at the temp output path only, and
    unlinks nothing else. *)
Lemma decision_body_frame env data p mime filename w :
  let out := temp_path env (output_suffix mime filename) in
  let '(_, w1, l1) := decision_body env data p mime filename w in
  user_data w1 = user_data w /\
  fs w1 ⊆ fs w ∪ {[out]} /\
  (forall q, q ∈ fs w -> q <> out -> q ∈ fs w1) /\
  (forall q, In q (deletions l1) -> q = out).
Proof.
  intros out. subst out. run_all.
  all: split; [reflexivity |].
  all: split; [set_solver |].
  all: split; [set_solver |].
  all: cbn; intros q Hq; intuition congruence.
Qed.

(** What [button_cb] can do to the world: nothing at all, or it consumes
    the pending item, and then only the stored file and the temp output
    are touched. *)
Lemma button_cb_effect env data w :
  let '(_, w', l) := button_cb env data w in
  (w' = w /\ deletions l = []) \/
  (exists p,
     pending w p /\
     user_data w' =
       delete "last_media_filename"
         (delete "last_media_mime"
            (delete "last_media_path" (user_data w))) /\
     (p ∉ fs w') /\
     fs w' ⊆ fs w ∪ {[output_path_of env w]} /\
     (forall q, q ∈ fs w -> q <> p -> q <> output_path_of env w -> q ∈ fs w') /\
     (forall q, In q (deletions l) -> q = p \/ q = output_path_of env w)).
Proof.
  destruct (answer_error env) as [e |] eqn:Ha.
  { run_all; left; split; reflexivity. }
  destruct (user_data w !! "last_media_path") as [p |] eqn:Hp.
  2: { rewrite (button_cb_no_file env data w (or_introl Hp) Ha).
       left. split; reflexivity. }
  destruct (decide (p ∈ fs w)) as [Hin | Hout].
  2: { rewrite (button_cb_no_file env data w); [| right; eauto | exact Ha].
       left. split; reflexivity. }
  destruct (String.eqb_spec p EmptyString) as [-> | Hne].
  { run_all; left; split; reflexivity. }
  assert (Hpend : pending w p) by (repeat split; assumption).
  rewrite (button_cb_pending env data w p Hpend Ha). unfold output_path_of.
  pose proof (decision_body_frame env data p
                (user_data w !! "last_media_mime")
                (default "file" (user_data w !! "last_media_filename")) w)
    as H.
  cbv zeta in H.
  destruct (decision_body env data p _ _ w) as [[r w1] l1].
  destruct H as (Hud & Hsub & Hkeep & Hdel).
  right. exists p. split; [exact Hpend |].
  cbn [fs user_data]. rewrite Hud.
  split; [reflexivity |].
  split; [apply not_elem_of_removed |].
  split; [set_solver |].
  split; [intros q Hq Hqp Hqo; specialize (Hkeep q Hq Hqo); set_solver |].
  intros q. cbn [deletions]. rewrite deletions_app. intros Hq.
  apply in_app_or in Hq. destruct Hq as [Hq | Hq]; [right; by apply Hdel |].
  left. case_bool_decide; cbn in Hq; [destruct Hq as [-> | []]; reflexivity
                                     | destruct Hq].
Qed.

(** X4: the original decision sends exactly one document, the stored
    file under the stored display name ([file] when none is stored); it
    creates no temp file and starts no process, and the stored file is
    the only thing removed from storage, also when the send fails. *)
Theorem original_decision_sends_stored_file env w p :
  pending w p -> answer_error env = None ->
  edit_error env msg_sending_original = None ->
  let '(_, w', l) := button_cb env "original" w in
  sent l = [(p, default "file" (user_data w !! "last_media_filename"))] /\
  processes l = [] /\ temp_files l = [] /\ deletions l = [p] /\
  fs w' = fs w ∖ {[p]}.
Proof.
  intros (Hp & Hne & Hin) Ha He. run_all; repeat split.
Qed.

Lemma original_decision_sends_stored_file_witness :
  let w := after_upload "a1b2c3d4" "clip.mp4" in
  pending w "/tmp/tmpa1b2c3d4.mp4" /\
  let '(_, w', l) := button_cb (failing_send_env "e5f6g7h8") "original" w in
  sent l = [("/tmp/tmpa1b2c3d4.mp4",
             default "file" (user_data w !! "last_media_filename"))] /\
  processes l = [] /\ temp_files l = [] /\
  deletions l = ["/tmp/tmpa1b2c3d4.mp4"] /\
  fs w' = fs w ∖ {["/tmp/tmpa1b2c3d4.mp4"]}.
Proof.
  intros w.
  assert (Hp : pending w "/tmp/tmpa1b2c3d4.mp4") by pending_now.
  split; [exact Hp |].
  apply (original_decision_sends_stored_file (failing_send_env "e5f6g7h8")
           w "/tmp/tmpa1b2c3d4.mp4" Hp); reflexivity.
Defined.



(** X6: when the ffmpeg process cannot be started, the exception is
    caught: the user is shown the failure prefix followed by the text of
    that exception, no document is sent, the input file is deleted and
    the handler returns normally. *)
Theorem spawn_failure_is_reported env w p e :
  pending w p -> answer_error env = None ->
  edit_error env msg_compressing = None ->
  (forall cmd, subprocess_result env cmd = SpawnFailed e) ->
  let '(r, _, l) := button_cb env "compress" w in
  edits l = [msg_compressing; msg_compress_failed +:+ py_str e] /\
  sent l = [] /\ deletions l = [p] /\
  (edit_error env (msg_compress_failed +:+ py_str e) = None ->
   r = Normal tt).
Proof.
  intros (Hp & Hne & Hin) Ha He Hproc.
  run_with ltac:(idtac; rewrite Hproc).
  all: repeat split; congruence.
Qed.

Lemma spawn_failure_is_reported_witness :
  let w := after_upload "a1b2c3d4" "clip.mp4" in
  pending w "/tmp/tmpa1b2c3d4.mp4" /\
  let '(r, _, l) := button_cb (missing_ffmpeg_env "e5f6g7h8") "compress" w in
  edits l =
    [msg_compressing;
     msg_compress_failed +:+ "[Errno 2] No such file or directory: 'ffmpeg'"]
  /\ sent l = [] /\ deletions l = ["/tmp/tmpa1b2c3d4.mp4"] /\
  (edit_error (missing_ffmpeg_env "e5f6g7h8")
     (msg_compress_failed +:+
      "[Errno 2] No such file or directory: 'ffmpeg'") = None ->
   r = Normal tt).
Proof.
  intros w.
  assert (Hp : pending w "/tmp/tmpa1b2c3d4.mp4") by pending_now.
  split; [exact Hp |].
  apply (spawn_failure_is_reported (missing_ffmpeg_env "e5f6g7h8") w
           "/tmp/tmpa1b2c3d4.mp4"
           (FileNotFoundError
              "[Errno 2] No such file or directory: 'ffmpeg'") Hp);
    reflexivity.
Defined.

(** X7: [run_ffmpeg] returns its output path exactly when the process
    exits with status 0; a non-zero status gives the fixed
    [RuntimeError], and a process that cannot be started gives that
    exception. It never touches the session, never unlinks, never talks
    to the user, and the only path it can add to storage is the output
    path. *)
Theorem run_ffmpeg_outcome env input_path output_path w :
  let '(r, w', l) := run_ffmpeg env input_path output_path w in
  (exists cmd,
     processes l = [cmd] /\
     r = match subprocess_result env cmd with
         | SpawnFailed e => Raise e
         | Exited rc _ _ =>
             if (rc =? 0)%Z then Normal output_path
             else Raise (RuntimeError "ffmpeg failed")
         end) /\
  user_data w' = user_data w /\
  fs w ⊆ fs w' /\ fs w' ⊆ fs w ∪ {[output_path]} /\
  deletions l = [] /\ sent l = [] /\ edits l = [].
Proof.
  unfold_handler. reduce.
  match goal with
  | |- context [subprocess_result env ?c] =>
      destruct (subprocess_result env c) as [e | rc err wrote] eqn:Hrun
  end.
  - reduce. split; [| repeat split; set_solver].
    eexists. split; [reflexivity |]. rewrite Hrun. reflexivity.
  - destruct wrote, (Z.eqb_spec rc 0); reduce.
    all: split; [| repeat split; set_solver].
    all: eexists; (split; [reflexivity |]); rewrite Hrun.
    all: destruct (Z.eqb_spec rc 0); congruence.
Qed.

(** X8: when answering the callback query raises, the handler stops
    there: the exception leaves it, the pending item is neither delivered
    nor consumed, and the world is unchanged. *)
Theorem failed_answer_consumes_nothing env data w e :
  answer_error env = Some e ->
  button_cb env data w = (Raise e, w, [EvAnswer]).
Proof.
  intros Ha. run_all. reflexivity.
Qed.

Lemma failed_answer_consumes_nothing_witness :
  button_cb (failing_answer_env "e5f6g7h8") "original"
    (after_upload "a1b2c3d4" "clip.mp4")
  = (Raise (TelegramError "Query is too old"),
     after_upload "a1b2c3d4" "clip.mp4", [EvAnswer]).
Proof.
  apply (failed_answer_consumes_nothing (failing_answer_env "e5f6g7h8")
           "original" (after_upload "a1b2c3d4" "clip.mp4")
           (TelegramError "Query is too old")).
  reflexivity.
Defined.

(** X9: a decision unlinks nothing but the stored file and the temp
    output of this very event, and every other file that was on storage
    is still there afterwards. *)
Theorem decision_touches_only_own_files env data w q :
  let '(_, w', l) := button_cb env data w in
  (In q (deletions l) ->
   user_data w !! "last_media_path" = Some q \/ q = output_path_of env w) /\
  (q ∈ fs w -> user_data w !! "last_media_path" <> Some q ->
   q <> output_path_of env w -> q ∈ fs w').
Proof.
  pose proof (button_cb_effect env data w) as H.
  destruct (button_cb env data w) as [[r w'] l].
  destruct H as [[-> Hdel] | (p & (Hp & _ & _) & _ & _ & _ & Hkeep & Hdel)].
  - rewrite Hdel. split; [intros [] | tauto].
  - split.
    + intros Hq. destruct (Hdel q Hq) as [-> | ->]; tauto.
    + intros Hq Hnp Hno. apply Hkeep; [assumption | congruence | assumption].
Qed.

(** ** The command handlers, [main], and sequences of events *)

Lemma start_effect env w :
  start env w =
    (match reply_error env msg_start with
     | Some e => Raise e
     | None => Normal tt
     end, w, [EvReplyText msg_start None]).
Proof. unfold start. run_all; reflexivity. Qed.

Lemma help_cmd_effect env w :
  help_cmd env w =
    (match reply_error env msg_help with
     | Some e => Raise e
     | None => Normal tt
     end, w, [EvReplyText msg_help None]).
Proof. unfold help_cmd. run_all; reflexivity. Qed.

(** X10: no handler reads or writes any key of [user_data] other than the
    three session keys: whatever else is stored there for the user is
    the same after any of the four handlers, whatever the collaborators
    do. *)
Theorem handlers_touch_only_session_keys env data message w k :
  ~ session_key k ->
  user_data (world_after (start env) w) !! k = user_data w !! k /\
  user_data (world_after (help_cmd env) w) !! k = user_data w !! k /\
  user_data (world_after (handle_media env message) w) !! k
    = user_data w !! k /\
  user_data (world_after (button_cb env data) w) !! k = user_data w !! k.
Proof.
  intros Hk. unfold session_key in Hk. unfold world_after.
  rewrite start_effect, help_cmd_effect. cbn [fst snd].
  split; [reflexivity |]. split; [reflexivity |]. split.
  - pose proof (handle_media_effect env message w) as H.
    destruct (handle_media env message w) as [[r w'] l]. cbn [fst snd].
    destruct H as (_ & _ & [-> | (f & n & kind & _ & -> & _)]);
      [reflexivity |].
    rewrite !lookup_insert_ne by (intros <-; apply Hk; auto). reflexivity.
  - pose proof (button_cb_effect env data w) as H.
    destruct (button_cb env data w) as [[r w'] l]. cbn [fst snd].
    destruct H as [[-> _] | (p & _ & -> & _)]; [reflexivity |].
    rewrite !lookup_delete_ne by (intros <-; apply Hk; auto). reflexivity.
Qed.

Lemma handlers_touch_only_session_keys_witness :
  let w := {| fs := ∅; user_data := {["language" := "ar"]} |} in
  user_data
    (world_after (handle_media (calm_env "a1b2c3d4")
                    (video_message "F1" "clip.mp4")) w) !! "language"
  = Some "ar".
Proof.
  intros w.
  apply (handlers_touch_only_session_keys (calm_env "a1b2c3d4") "original"
           (video_message "F1" "clip.mp4") w "language").
  unfold session_key. intros [H | [H | H]]; discriminate H.
Defined.

(** A stored path comes with a stored kind, and the kind is one of the
    two that [handle_media] records. *)
Lemma reachable_kind w p :
  reachable w -> user_data w !! "last_media_path" = Some p ->
  exists k, user_data w !! "last_media_mime" = Some k /\
            (k = "video" \/ k = "animation").
Proof.
  intros Hr. revert p.
  induction Hr as [files | env w _ IH | env w _ IH
                  | env message w _ IH | env data w _ IH]; intros p.
  - cbn [user_data]. by rewrite lookup_empty.
  - unfold world_after. rewrite start_effect. apply IH.
  - unfold world_after. rewrite help_cmd_effect. apply IH.
  - unfold world_after.
    pose proof (handle_media_effect env message w) as H.
    destruct (handle_media env message w) as [[r w'] l]. cbn [fst snd].
    destruct H as (_ & _ & [-> | (f & n & k & Hsel & -> & _)]); [apply IH |].
    intros _. exists k. split; [by simplify_map_eq |].
    eapply select_media_kind; eassumption.
  - unfold world_after.
    pose proof (button_cb_effect env data w) as H.
    destruct (button_cb env data w) as [[r w'] l]. cbn [fst snd].
    destruct H as [[-> _] | (q & _ & -> & _)]; [apply IH |].
    by simplify_map_eq.
Qed.

(** X11: in every world that the handlers can reach from an empty
    session, the session is either empty or complete: the three keys are
    set together, the kind is [video] or [animation], and the stored file
    is on storage. *)
Theorem reachable_session_empty_or_full w :
  reachable w -> session_empty w \/ session_full w.
Proof.
  induction 1 as [files | env w _ IH | env w _ IH
                 | env message w _ IH | env data w _ IH].
  - left. unfold session_empty. cbn [user_data]. by rewrite !lookup_empty.
  - unfold world_after. rewrite start_effect. exact IH.
  - unfold world_after. rewrite help_cmd_effect. exact IH.
  - unfold world_after.
    pose proof (handle_media_effect env message w) as H.
    destruct (handle_media env message w) as [[r w'] l]. cbn [fst snd].
    destruct H as (_ & Hfs & [Hud | (f & n & k & Hsel & Hud & Hin)]).
    + destruct IH as [IH | (p & k & n & Hp & Hk & Hn & Hkind & Hin)].
      * left. unfold session_empty in *. rewrite Hud. exact IH.
      * right. exists p, k, n. rewrite Hud. repeat split; try assumption.
        set_solver.
    + right. exists (temp_path env (path_suffix n)), k, n. rewrite Hud.
      repeat split; try (by simplify_map_eq); try assumption.
      eapply select_media_kind; eassumption.
  - unfold world_after.
    pose proof (button_cb_effect env data w) as H.
    destruct (button_cb env data w) as [[r w'] l]. cbn [fst snd].
    destruct H as [[-> _] | (p & _ & Hud & _)]; [exact IH |].
    left. by eapply session_empty_after_pops.
Qed.

Lemma reachable_session_empty_or_full_witness :
  session_empty (after_upload "a1b2c3d4" "clip.mp4") \/
  session_full (after_upload "a1b2c3d4" "clip.mp4").
Proof.
  apply (reachable_session_empty_or_full (after_upload "a1b2c3d4" "clip.mp4")).
  apply (reach_handle_media (calm_env "a1b2c3d4")
           (video_message "F1" "clip.mp4") empty_world).
  apply (reach_init ∅).
Defined.

(** X12: in every reachable world with a stored item, the temp output of
    a compress decision is requested with the suffix [.mp4]: the branch
    of line 135 that takes the suffix of the display name is never
    used. *)
Theorem reachable_output_is_mp4 w env p :
  reachable w -> user_data w !! "last_media_path" = Some p ->
  output_path_of env w = temp_path env ".mp4".
Proof.
  intros Hr Hp.
  destruct (reachable_kind w p Hr Hp) as (k & Hk & Hkind).
  unfold output_path_of, output_suffix. rewrite Hk.
  destruct Hkind as [-> | ->]; reflexivity.
Qed.

Lemma reachable_output_is_mp4_witness :
  output_path_of (calm_env "e5f6g7h8") (after_upload "a1b2c3d4" "clip.mov")
  = temp_path (calm_env "e5f6g7h8") ".mp4".
Proof.
  apply (reachable_output_is_mp4 (after_upload "a1b2c3d4" "clip.mov")
           (calm_env "e5f6g7h8") "/tmp/tmpa1b2c3d4.mov").
  - apply (reach_handle_media (calm_env "a1b2c3d4")
             (video_message "F1" "clip.mov") empty_world).
    apply (reach_init ∅).
  - vm_compute. reflexivity.
Defined.





Lemma decision_touches_only_own_files_witness :
  let w := {| fs := {["/srv/keep.txt"]} ∪ fs (after_upload "a1b2c3d4" "clip.mp4");
              user_data := user_data (after_upload "a1b2c3d4" "clip.mp4") |} in
  let '(_, w', _) := button_cb (calm_env "e5f6g7h8") "compress" w in
  "/srv/keep.txt" ∈ fs w'.
Proof.
  intros w.
  pose proof (decision_touches_only_own_files (calm_env "e5f6g7h8")
                "compress" w "/srv/keep.txt") as H.
  destruct (button_cb (calm_env "e5f6g7h8") "compress" w) as [[r w'] l].
  apply H; [vm_compute; reflexivity | vm_compute; discriminate
           | vm_compute; discriminate].
Defined.

(** ** Whole sessions *)

Lemma cooperative_calm_env stem : cooperative (calm_env stem).
Proof.
  repeat split. intros cmd. exists EmptyString, true. reflexivity.
Qed.

(** X15: a whole session with cooperative collaborators: an upload that
    is answered by either of the two offered decisions sends exactly one
    document, completes normally, empties the session and leaves storage
    exactly as it was before the upload, provided the two temp names are
    new. *)
Theorem upload_then_decision_restores_storage
  env1 env2 message data w f n k :
  cooperative env1 -> cooperative env2 ->
  select_media message = Some (f, Some n, k) ->
  In data (map snd (concat choice_keyboard)) ->
  let p := temp_path env1 (path_suffix n) in
  let out := temp_path env2 ".mp4" in
  p <> EmptyString -> p ∉ fs w -> out ∉ fs w -> out <> p ->
  let '(r1, w1, _) := handle_media env1 message w in
  let '(r2, w2, l2) := button_cb env2 data w1 in
  r1 = Normal tt /\ r2 = Normal tt /\
  length (sent l2) = 1 /\ session_empty w2 /\ fs w2 = fs w.
Proof.
  intros (_ & _ & Hr1 & Hg1 & Hd1 & _) (Ha2 & He2 & _ & _ & _ & Hs2 & Hproc)
    Hsel Hdata p out Hne Hnew Hnewout Hdiff.
  subst p out.
  pose proof (select_media_kind _ _ _ _ Hsel) as Hkind.
  set (p := temp_path env1 (path_suffix n)) in *.
  pose (w1 := {| fs := {[p]} ∪ fs w;
                 user_data :=
                   <["last_media_filename" := n]>
                     (<["last_media_mime" := k]>
                        (<["last_media_path" := p]> (user_data w))) |}).
  assert (H1 : exists l1, handle_media env1 message w = (Normal tt, w1, l1)).
  { subst w1 p. unfold handle_media. rewrite Hsel.
    run_with ltac:(idtac; first [rewrite Hr1 | rewrite Hg1 | rewrite Hd1]).
    eexists. reflexivity. }
  destruct H1 as [l1 ->].
  assert (Hp : user_data w1 !! "last_media_path" = Some p)
    by (subst w1; cbn [user_data]; by simplify_map_eq).
  assert (Hk : user_data w1 !! "last_media_mime" = Some k)
    by (subst w1; cbn [user_data]; by simplify_map_eq).
  assert (Hn : user_data w1 !! "last_media_filename" = Some n)
    by (subst w1; cbn [user_data]; by simplify_map_eq).
  assert (Hfs : fs w1 = {[p]} ∪ fs w) by reflexivity.
  assert (Hpend : pending w1 p)
    by (repeat split; [exact Hp | exact Hne | rewrite Hfs; set_solver]).
  assert (Hout : output_path_of env2 w1 = temp_path env2 ".mp4").
  { unfold output_path_of, output_suffix. rewrite Hk.
    destruct Hkind as [-> | ->]; reflexivity. }
  clearbody w1.
  rewrite (button_cb_pending env2 data w1 p Hpend Ha2).
  rewrite Hk, Hn. change (default "file" (Some n)) with n.
  clear Hout.
  set (out := temp_path env2 ".mp4") in *.
  assert (Hbody :
    let '(r, w', l) := decision_body env2 data p (Some k) n w1 in
    r = Normal tt /\ length (sent l) = 1 /\ fs w' ∖ {[p]} = fs w).
  { cbn in Hdata.
    destruct Hdata as [<- | [<- | []]].
    - run_with ltac:(idtac; first [rewrite He2 | rewrite Hs2]).
      repeat split. rewrite Hfs. set_solver.
    - unfold decision_body. cbn [String.eqb Ascii.eqb Bool.eqb].
      fold (output_suffix (Some k) n). unfold output_suffix in *.
      run_with ltac:(
        idtac;
        first [ rewrite He2 | rewrite Hs2
              | match goal with
                | |- context [subprocess_result env2 ?c] =>
                    destruct (Hproc c) as (err & wrote & Hrun); rewrite Hrun
                end ]).
      all: repeat split; rewrite ?Hfs; set_solver. }
  destruct (decision_body env2 data p (Some k) n w1) as [[r w'] l].
  destruct Hbody as (-> & Hsent & Hfs').
  split; [reflexivity |]. split; [reflexivity |]. cbn [sent]. rewrite sent_app.
  split; [rewrite length_app, Hsent; by case_bool_decide |].
  split; [by eapply session_empty_after_pops | exact Hfs'].
Qed.

Lemma upload_then_decision_restores_storage_witness :
  let '(r1, w1, _) :=
    handle_media (calm_env "a1b2c3d4") (video_message "F1" "clip.mp4")
      empty_world in
  let '(r2, w2, l2) := button_cb (calm_env "e5f6g7h8") "compress" w1 in
  r1 = Normal tt /\ r2 = Normal tt /\
  length (sent l2) = 1 /\ session_empty w2 /\ fs w2 = fs empty_world.
Proof.
  apply (upload_then_decision_restores_storage
           (calm_env "a1b2c3d4") (calm_env "e5f6g7h8")
           (video_message "F1" "clip.mp4") "compress" empty_world
           {| file_id := "F1"; file_name := AttrStr "clip.mp4" |}
           "clip.mp4" "video"
           (cooperative_calm_env "a1b2c3d4")
           (cooperative_calm_env "e5f6g7h8") eq_refl).
  - cbn. tauto.
  - vm_compute. discriminate.
  - cbn [fs empty_world]. apply not_elem_of_empty.
  - cbn [fs empty_world]. apply not_elem_of_empty.
  - vm_compute. discriminate.
Defined.

(** An upload whose download succeeds: the temp file is on storage and the
    session holds the new item, whatever the last reply does. *)
Lemma handle_media_recorded env m w f n k :
  select_media m = Some (f, Some n, k) ->
  get_file_error env (file_id f) = None ->
  download_error env (file_id f) (temp_path env (path_suffix n)) = None ->
  exists r l,
    handle_media env m w =
      (r,
       {| fs := {[temp_path env (path_suffix n)]} ∪ fs w;
          user_data :=
            <["last_media_filename" := n]>
              (<["last_media_mime" := k]>
                 (<["last_media_path" := temp_path env (path_suffix n)]>
                    (user_data w))) |},
       l).
Proof.
  intros Hsel Hg Hd. unfold handle_media. rewrite Hsel.
  run_all; eexists; eexists; reflexivity.
Qed.

(** X16: an upload that is superseded by a second one before any decision
    is never cleaned up: after the decision on the second upload the
    session is empty and the second file is gone, but the first file is
    still on storage, with nothing left that refers to it. *)
Theorem superseded_upload_stays_on_storage
  env1 env2 env3 m1 m2 data w f1 n1 k1 f2 n2 k2 :
  select_media m1 = Some (f1, Some n1, k1) ->
  get_file_error env1 (file_id f1) = None ->
  download_error env1 (file_id f1) (temp_path env1 (path_suffix n1)) = None ->
  select_media m2 = Some (f2, Some n2, k2) ->
  get_file_error env2 (file_id f2) = None ->
  download_error env2 (file_id f2) (temp_path env2 (path_suffix n2)) = None ->
  answer_error env3 = None ->
  let p1 := temp_path env1 (path_suffix n1) in
  let p2 := temp_path env2 (path_suffix n2) in
  p1 <> p2 -> p2 <> EmptyString -> p1 <> temp_path env3 ".mp4" ->
  let '(_, w1, _) := handle_media env1 m1 w in
  let '(_, w2, _) := handle_media env2 m2 w1 in
  let '(_, w3, _) := button_cb env3 data w2 in
  p1 ∈ fs w3 /\ (p2 ∉ fs w3) /\ session_empty w3.
Proof.
  intros Hm1 Hg1 Hd1 Hm2 Hg2 Hd2 Ha3 p1 p2 Hdiff Hne Hout.
  destruct (handle_media_recorded env1 m1 w f1 n1 k1 Hm1 Hg1 Hd1)
    as (r1 & l1 & ->).
  fold p1.
  set (w1 := {| fs := {[p1]} ∪ fs w; user_data := _ |}).
  destruct (handle_media_recorded env2 m2 w1 f2 n2 k2 Hm2 Hg2 Hd2)
    as (r2 & l2 & ->).
  fold p2.
  set (w2 := {| fs := {[p2]} ∪ fs w1; user_data := _ |}).
  assert (Hp : user_data w2 !! "last_media_path" = Some p2)
    by (subst w2; cbn [user_data]; by simplify_map_eq).
  assert (Hk : user_data w2 !! "last_media_mime" = Some k2)
    by (subst w2; cbn [user_data]; by simplify_map_eq).
  assert (Hin1 : p1 ∈ fs w2) by (subst w2 w1; cbn [fs]; set_solver).
  assert (Hpend : pending w2 p2)
    by (repeat split; [exact Hp | exact Hne | subst w2; cbn [fs]; set_solver]).
  assert (Hmp4 : output_path_of env3 w2 = temp_path env3 ".mp4").
  { unfold output_path_of, output_suffix. rewrite Hk.
    destruct (select_media_kind _ _ _ _ Hm2) as [-> | ->]; reflexivity. }
  clearbody w2.
  pose proof (button_cb_cleanup env3 data w2 p2 Hpend Ha3) as Hclean.
  pose proof (button_cb_effect env3 data w2) as Heff.
  destruct (button_cb env3 data w2) as [[r3 w3] l3].
  destruct Hclean as (_ & Hgone & Hud).
  split; [| split; [exact Hgone | by eapply session_empty_after_pops]].
  destruct Heff as [[-> _] | (p & (Hp' & _) & _ & _ & _ & Hkeep & _)];
    [exact Hin1 |].
  apply Hkeep; [exact Hin1 | congruence | congruence].
Qed.

Lemma superseded_upload_stays_on_storage_witness :
  let '(_, w1, _) :=
    handle_media (calm_env "a1b2c3d4") (video_message "F1" "clip.mp4")
      empty_world in
  let '(_, w2, _) :=
    handle_media (calm_env "e5f6g7h8") (animation_message "F2" "loop.gif")
      w1 in
  let '(_, w3, _) := button_cb (calm_env "i9j0k1l2") "original" w2 in
  "/tmp/tmpa1b2c3d4.mp4" ∈ fs w3 /\ ("/tmp/tmpe5f6g7h8.gif" ∉ fs w3) /\
  session_empty w3.
Proof.
  apply (superseded_upload_stays_on_storage
           (calm_env "a1b2c3d4") (calm_env "e5f6g7h8") (calm_env "i9j0k1l2")
           (video_message "F1" "clip.mp4")
           (animation_message "F2" "loop.gif") "original" empty_world
           {| file_id := "F1"; file_name := AttrStr "clip.mp4" |}
           "clip.mp4" "video"
           {| file_id := "F2"; file_name := AttrStr "loop.gif" |}
           "loop.gif" "animation");
    try reflexivity; vm_compute; discriminate.
Defined.

(** ** The name of the compressed document *)

Lemma split_on_without_separator c s :
  Forall (fun x => existsb (Ascii.eqb c) (list_ascii_of_string x) = false)
    (split_on c s).
Proof.
  induction s as [| a s IH]; cbn [split_on].
  - constructor; [reflexivity | constructor].
  - destruct (Ascii.eqb a c) eqn:Hac.
    + constructor; [reflexivity | exact IH].
    + destruct (split_on c s) as [| h t]; inversion IH; subst.
      * constructor; [| constructor]. cbn.
        rewrite Ascii.eqb_sym, Hac. reflexivity.
      * constructor; [| assumption]. cbn.
        rewrite Ascii.eqb_sym, Hac. assumption.
Qed.

Lemma last_Forall {A} (P : A -> Prop) (l : list A) (d : A) :
  Forall P l -> P d -> P (List.last l d).
Proof.
  induction 1 as [| x l Hx Hl IH]; intros Hd; [exact Hd |].
  destruct l; [exact Hx | exact (IH Hd)].
Qed.

Lemma path_name_without_separator p : has_separator (path_name p) = false.
Proof.
  unfold has_separator, path_name, path_parts.
  apply (last_Forall
           (fun x => existsb (Ascii.eqb "/") (list_ascii_of_string x) = false));
    [| reflexivity].
  apply Forall_forall. intros x Hx.
  apply list_elem_of_filter in Hx. destruct Hx as [_ Hx].
  pose proof (split_on_without_separator "/" p) as H.
  rewrite Forall_forall in H. exact (H x Hx).
Qed.

(** X17: whatever name [tempfile] picks, a compress decision sends at
    most one document, and the file name it is sent under is the last
    component of the path that is sent, with no path separator in it. *)
Theorem compressed_document_name_is_base_name env w p :
  pending w p -> answer_error env = None ->
  let '(_, _, l) := button_cb env "compress" w in
  length (sent l) <= 1 /\
  Forall (fun d => snd d = path_name (fst d) /\ has_separator (snd d) = false)
    (sent l).
Proof.
  intros Hp Ha. rewrite (button_cb_pending env "compress" w p Hp Ha).
  set (mime := user_data w !! "last_media_mime").
  set (filename := default "file" (user_data w !! "last_media_filename")).
  assert (Hbody :
    let '(_, _, l1) := decision_body env "compress" p mime filename w in
    sent l1 = [] \/ exists out, sent l1 = [(out, path_name out)]).
  { run_all; first [left; reflexivity | right; eexists; reflexivity]. }
  destruct (decision_body env "compress" p mime filename w) as [[r w1] l1].
  cbn [sent]. rewrite sent_app.
  assert (Htail : sent (if bool_decide (p ∈ fs w1) then [EvUnlink p] else [])
                  = []) by (by case_bool_decide).
  rewrite Htail, app_nil_r.
  destruct Hbody as [-> | (out & ->)].
  - split; [cbn; lia | constructor].
  - split; [cbn; lia |].
    constructor; [| constructor]. cbn [fst snd].
    split; [reflexivity | apply path_name_without_separator].
Qed.

Lemma compressed_document_name_is_base_name_witness :
  let w := after_upload "a1b2c3d4" "clip.mp4" in
  pending w "/tmp/tmpa1b2c3d4.mp4" /\
  let '(_, _, l) := button_cb (calm_env "e5f6g7h8") "compress" w in
  length (sent l) <= 1 /\
  Forall (fun d => snd d = path_name (fst d) /\ has_separator (snd d) = false)
    (sent l).
Proof.
  intros w.
  assert (Hp : pending w "/tmp/tmpa1b2c3d4.mp4") by pending_now.
  split; [exact Hp |].
  apply (compressed_document_name_is_base_name (calm_env "e5f6g7h8") w
           "/tmp/tmpa1b2c3d4.mp4" Hp).
  reflexivity.
Defined.

(** ** Failures that stay inside the handler *)

(** X18: when the gateway accepts every call, a decision completes
    normally in every world, for every callback data and whatever ffmpeg
    does (non-zero exit, or no ffmpeg at all): a failed transcode never
    leaves the handler as an exception. *)
Theorem decision_never_raises_on_transcode_failure env data w :
  answer_error env = None ->
  (forall t, edit_error env t = None) ->
  (forall p f, send_error env p f = None) ->
  let '(r, _, _) := button_cb env data w in r = Normal tt.
Proof.
  intros Ha He Hs.
  destruct (user_data w !! "last_media_path") as [p |] eqn:Hp.
  2: { rewrite (button_cb_no_file env data w (or_introl Hp) Ha).
       by rewrite He. }
  destruct (decide (p ∈ fs w)) as [Hin | Hout].
  2: { rewrite (button_cb_no_file env data w); [| right; eauto | exact Ha].
       by rewrite He. }
  destruct (String.eqb_spec p EmptyString) as [-> | Hne].
  { run_with ltac:(idtac; rewrite He); reflexivity. }
  assert (Hpend : pending w p) by (repeat split; assumption).
  rewrite (button_cb_pending env data w p Hpend Ha).
  assert (Hbody :
    let '(r, _, _) :=
      decision_body env data p (user_data w !! "last_media_mime")
        (default "file" (user_data w !! "last_media_filename")) w in
    r = Normal tt \/ r = Returned).
  { run_with ltac:(idtac; first [rewrite He | rewrite Hs]);
      first [left; reflexivity | right; reflexivity]. }
  destruct (decision_body env data p _ _ w) as [[r w1] l1].
  destruct Hbody as [-> | ->]; reflexivity.
Qed.

Lemma decision_never_raises_on_transcode_failure_witness :
  let '(r, _, _) :=
    button_cb (missing_ffmpeg_env "e5f6g7h8") "compress"
      (after_upload "a1b2c3d4" "clip.mp4") in
  r = Normal tt.
Proof.
  apply (decision_never_raises_on_transcode_failure
           (missing_ffmpeg_env "e5f6g7h8") "compress"
           (after_upload "a1b2c3d4" "clip.mp4")); reflexivity.
Defined.
